(** * QualSteam stable-process dashboard: the batch analytics of [app.py]

    A shallow embedding of [load_data], [calculate_stats] and the analytic
    part of [main], with the pandas operations they call.

    Conventions of the embedding.
    - A float64 cell is either missing ([NaN]) or a finite real, kept as the
      exact rational it denotes ([Fin q]); infinities and the sign of zero
      are not represented.
    - The reductions of pandas ([mean], [median], [max], [min], [std]) are
      library code: the script is modelled over any five such functions
      ([reductions]).  [nanops] gives them in exact arithmetic, where
      [Series.std], a square root, stays symbolic ([Sqrt v]) until it is
      formatted; [calculate_stats] and [main] are the script over [nanops].
    - A datetime64[ns] or timedelta64[ns] value is a count of nanoseconds
      that fits 64 bits, or [NaT]; what does not fit raises.
    - A DataFrame is a finite map from column names to typed columns.
    - Python exceptions are values of [exn]; code that may raise lives in
      the [result] monad. *)

From Stdlib Require Import ZArith QArith Qabs String Ascii List Lia.
From Stdlib Require Import DecimalString Lqa.
From stdpp Require Import base option list sorting strings gmap.

Close Scope Q_scope.
Open Scope Z_scope.

Set Warnings "-clear-no-such-hyp".

(** ** Exceptions and results *)

Inductive exn :=
| FileNotFoundError
| ParserError
| KeyError (key : string)
| ValueError (msg : string)
| TypeError (msg : string).

Inductive result (A : Type) :=
| Ok (a : A)
| Raise (e : exn).
Arguments Ok {A} a.
Arguments Raise {A} e.

#[global] Instance result_ret : MRet result := λ A a, Ok a.
#[global] Instance result_bind : MBind result := λ A B f m,
  match m with
  | Ok a => f a
  | Raise e => Raise e
  end.
#[global] Instance result_fmap : FMap result := λ A B f m,
  match m with
  | Ok a => Ok (f a)
  | Raise e => Raise e
  end.

(** ** Scalars *)

(** A float64 cell. *)
Inductive float :=
| NaN
| Fin (q : Q).

(** The value of a reduction: a float, or the square root of one. *)
Inductive number :=
| Exact (x : float)
| Sqrt (x : float).
Coercion Exact : float >-> number.

(** A Timestamp or Timedelta: nanoseconds, or not-a-time. *)
Inductive instant :=
| NaT
| Ns (n : Z).

(** ** Formatting: the [f"{x:.<prec>f}"] of Python *)

Definition string_of_N (n : Z) : string :=
  NilZero.string_of_uint (N.to_uint (Z.to_N n)).

Fixpoint zeros (k : nat) : string :=
  match k with
  | O => ""
  | S k' => String "0" (zeros k')
  end.

(** Right-justify [s] in a field of [width] characters, padding with 0. *)
Definition zfill (width : nat) (s : string) : string :=
  zeros (width - String.length s) +:+ s.

(** Nearest integer to [n/d], ties to even ([d > 0]). *)
Definition round_half_even_frac (n d : Z) : Z :=
  let f := n / d in
  match (2 * (n mod d)) ?= d with
  | Lt => f
  | Gt => f + 1
  | Eq => if Z.even f then f else f + 1
  end.

Definition round_half_even (q : Q) : Z :=
  round_half_even_frac (Qnum q) (Zpos (Qden q)).

(** Nearest integer to [sqrt (n/d) * p], ties to even ([n >= 0], [d, p > 0]). *)
Definition round_sqrt (n d p : Z) : Z :=
  let k := Z.sqrt (n * p * p / d) in
  match (4 * n * p * p) ?= ((2 * k + 1) * (2 * k + 1) * d) with
  | Lt => k
  | Gt => k + 1
  | Eq => if Z.even k then k else k + 1
  end.

(** Sign, integer digits, point, [prec] fraction digits of [m / 10^prec]. *)
Definition fixed_point (negative : bool) (prec : nat) (m : Z) : string :=
  let p := 10 ^ Z.of_nat prec in
  (if negative then "-" else "") +:+ string_of_N (m / p) +:+
  match prec with
  | O => ""
  | _ => "." +:+ zfill prec (string_of_N (m mod p))
  end.

Definition format_f (prec : nat) (x : number) : string :=
  let p := 10 ^ Z.of_nat prec in
  match x with
  | Exact NaN | Sqrt NaN => "nan"
  | Exact (Fin q) =>
      fixed_point (Qnum q <? 0) prec
        (round_half_even (Qabs q * inject_Z p)%Q)
  | Sqrt (Fin q) =>
      if Qnum q <? 0 then "nan"
      else fixed_point false prec (round_sqrt (Qnum q) (Zpos (Qden q)) p)
  end.

Arguments format_f : simpl never.

(** ** Reductions of a float64 series (pandas [nanops], [skipna=True]) *)

Definition dropna (xs : list float) : list Q :=
  omap (λ x, match x with Fin q => Some q | NaN => None end) xs.

Definition Qsum (vs : list Q) : Q := foldr Qplus 0%Q vs.

Definition Qcount (vs : list Q) : Q := inject_Z (Z.of_nat (length vs)).

#[global] Instance Qle_dec : RelDecision Qle.
Proof. intros x y. unfold Qle. apply _. Defined.

Definition Qmaximum (v : Q) (vs : list Q) : Q :=
  foldl (λ a b, if decide (a <= b)%Q then b else a) v vs.

Definition Qminimum (v : Q) (vs : list Q) : Q :=
  foldl (λ a b, if decide (b <= a)%Q then b else a) v vs.

(** [Series.mean]: sum of the valid values over their count. *)
Definition mean (xs : list float) : float :=
  let vs := dropna xs in
  match vs with
  | [] => NaN
  | _ => Fin (Qsum vs / Qcount vs)
  end.

(** [Series.median]: the middle valid value, or the mean of the two middle
    ones. *)
Definition median (xs : list float) : float :=
  let vs := merge_sort Qle (dropna xs) in
  let n := length vs in
  match vs with
  | [] => NaN
  | v :: _ =>
      if Nat.odd n then Fin (nth (n / 2)%nat vs v)
      else Fin ((nth (n / 2 - 1)%nat vs v + nth (n / 2)%nat vs v) / 2)
  end.

(** [Series.max] and [Series.min]. *)
Definition maximum (xs : list float) : float :=
  match dropna xs with
  | [] => NaN
  | v :: vs => Fin (Qmaximum v vs)
  end.

Definition minimum (xs : list float) : float :=
  match dropna xs with
  | [] => NaN
  | v :: vs => Fin (Qminimum v vs)
  end.

(** Sum of the squared deviations from [avg]. *)
Definition sq_dev (avg : Q) (vs : list Q) : Q :=
  Qsum (map (λ v, (avg - v) * (avg - v))%Q vs).

(** [nanvar]: undefined unless there are more than [ddof] valid values. *)
Definition var (ddof : nat) (xs : list float) : float :=
  let vs := dropna xs in
  if (length vs <=? ddof)%nat then NaN
  else
    let avg := (Qsum vs / Qcount vs)%Q in
    Fin (sq_dev avg vs / inject_Z (Z.of_nat (length vs - ddof)))%Q.

(** [Series.std], with the default [ddof=1]. *)
Definition std (xs : list float) : number := Sqrt (var 1 xs).

(** ** Columns *)

Inductive column :=
| Float64 (xs : list float)
| Int64 (xs : list Z)
| Object (xs : list string)
| Datetime (xs : list instant).

(** The float view of a numeric column; text and dates have none. *)
Definition to_numeric (series : column) : result (list float) :=
  match series with
  | Float64 xs => Ok xs
  | Int64 xs => Ok (map (λ z, Fin (inject_Z z)) xs)
  | Object _ => Raise (TypeError "could not convert string to numeric")
  | Datetime _ => Raise (TypeError "unsupported format string")
  end.

(** ** [calculate_stats] (app.py, lines 80-87) *)

Record stats := {
  Mean : string;
  Median : string;
  Max : string;
  Min : string;
  Std_Dev : string
}.

(** The five reductions that [calculate_stats] calls on a series. *)
Record reductions := {
  series_mean : list float → float;
  series_median : list float → float;
  series_max : list float → float;
  series_min : list float → float;
  series_std : list float → number
}.

(** The reductions in exact arithmetic. *)
Definition nanops : reductions :=
  {| series_mean := mean;
     series_median := median;
     series_max := maximum;
     series_min := minimum;
     series_std := std |}.

Definition calculate_stats_with (pandas : reductions) (series : column)
  : result stats :=
  xs ← to_numeric series;
  Ok {| Mean := format_f 2 (series_mean pandas xs);
        Median := format_f 2 (series_median pandas xs);
        Max := format_f 2 (series_max pandas xs);
        Min := format_f 2 (series_min pandas xs);
        Std_Dev := format_f 4 (series_std pandas xs) |}.

Definition calculate_stats : column → result stats :=
  calculate_stats_with nanops.

(** ** Timestamps *)

(** [Series.min] and [Series.max] of a datetime column skip [NaT]. *)
Definition valid_times (ts : list instant) : list Z :=
  omap (λ t, match t with Ns n => Some n | NaT => None end) ts.

Definition time_min (ts : list instant) : instant :=
  match valid_times ts with
  | [] => NaT
  | n :: ns => Ns (foldl Z.min n ns)
  end.

Definition time_max (ts : list instant) : instant :=
  match valid_times ts with
  | [] => NaT
  | n :: ns => Ns (foldl Z.max n ns)
  end.

(** The counts of nanoseconds that a Timestamp or a Timedelta can hold:
    64 bits, the least value being [NaT]. *)
Definition in_bounds (n : Z) : bool := (- 2 ^ 63 <? n) && (n <? 2 ^ 63).

(** [a - b] on Timestamps: a Timedelta, if the difference fits. *)
Definition time_sub (a b : instant) : result instant :=
  match a, b with
  | Ns x, Ns y =>
      if in_bounds (x - y) then Ok (Ns (x - y))
      else Raise (ValueError "Result is too large for pandas.Timedelta")
  | _, _ => Ok NaT
  end.

(** [Timedelta.total_seconds]; [NaT] gives [nan]. *)
Definition total_seconds (d : instant) : float :=
  match d with
  | NaT => NaN
  | Ns n => Fin (n # 1000000000)
  end.

(** Float division by a non-zero constant. *)
Definition fdiv (x : float) (c : Q) : float :=
  match x with
  | NaN => NaN
  | Fin v => Fin (v / c)
  end.

(** Proleptic Gregorian calendar: days since 1970-01-01 to (year, month,
    day) and back. *)
Definition civil_from_days (days : Z) : Z * Z * Z :=
  let z := days + 719468 in
  let era := z / 146097 in
  let doe := z - era * 146097 in
  let yoe := (doe - doe / 1460 + doe / 36524 - doe / 146096) / 365 in
  let doy := doe - (365 * yoe + yoe / 4 - yoe / 100) in
  let mp := (5 * doy + 2) / 153 in
  let d := doy - (153 * mp + 2) / 5 + 1 in
  let m := if mp <? 10 then mp + 3 else mp - 9 in
  (yoe + era * 400 + (if m <=? 2 then 1 else 0), m, d).

Definition days_from_civil (y m d : Z) : Z :=
  let y := if m <=? 2 then y - 1 else y in
  let era := y / 400 in
  let yoe := y - era * 400 in
  let doy := (153 * (if 2 <? m then m - 3 else m + 9) + 2) / 5 + d - 1 in
  let doe := yoe * 365 + yoe / 4 - yoe / 100 + doy in
  era * 146097 + doe - 719468.

Definition ns_per_second : Z := 1000000000.
Definition ns_per_day : Z := 86400 * ns_per_second.

Definition two_digits (n : Z) : string := zfill 2 (string_of_N n).

(** [Timestamp.strftime('%Y-%m-%d')]. *)
Definition strftime_date (t : instant) : result string :=
  match t with
  | NaT => Raise (ValueError "NaTType does not support strftime")
  | Ns n =>
      let '(y, m, d) := civil_from_days (n / ns_per_day) in
      Ok (zfill 4 (string_of_N y) +:+ "-" +:+ two_digits m +:+ "-" +:+
          two_digits d)
  end.

(** [Timestamp.strftime('%H:%M:%S')]. *)
Definition strftime_clock (t : instant) : result string :=
  match t with
  | NaT => Raise (ValueError "NaTType does not support strftime")
  | Ns n =>
      let secs := (n mod ns_per_day) / ns_per_second in
      Ok (two_digits (secs / 3600) +:+ ":" +:+
          two_digits (secs / 60 mod 60) +:+ ":" +:+ two_digits (secs mod 60))
  end.

(** Reading a date-time text.  The fixed format is
    [YYYY-MM-DD HH:MM:SS] (or with [T] between date and time); any other
    text counts as unparseable. *)
Definition digit (c : ascii) : option Z :=
  let n := Z.of_N (N_of_ascii c) in
  if (48 <=? n) && (n <=? 57) then Some (n - 48) else None.

Definition number2 (a b : ascii) : option Z :=
  x ← digit a; y ← digit b; Some (10 * x + y).

Definition is_leap (y : Z) : bool :=
  (y mod 4 =? 0) && (negb (y mod 100 =? 0) || (y mod 400 =? 0)).

Definition days_in_month (y m : Z) : Z :=
  if m =? 2 then (if is_leap y then 29 else 28)
  else if (m =? 4) || (m =? 6) || (m =? 9) || (m =? 11) then 30
  else 31.

Definition parse_nanoseconds (s : string) : option Z :=
  match list_ascii_of_string s with
  | [y1; y2; y3; y4; "-"; m1; m2; "-"; d1; d2; sep;
     h1; h2; ":"; n1; n2; ":"; s1; s2]%char =>
      yh ← number2 y1 y2; yl ← number2 y3 y4;
      mo ← number2 m1 m2; dd ← number2 d1 d2;
      hh ← number2 h1 h2; mi ← number2 n1 n2; ss ← number2 s1 s2;
      let yy := 100 * yh + yl in
      if (Ascii.eqb sep " " || Ascii.eqb sep "T") &&
         (1 <=? mo) && (mo <=? 12) &&
         (1 <=? dd) && (dd <=? days_in_month yy mo) &&
         (hh <? 24) && (mi <? 60) && (ss <? 60)
      then Some ((days_from_civil yy mo dd * 86400
                  + hh * 3600 + mi * 60 + ss) * ns_per_second)
      else None
  | _ => None
  end.

(** [pd.to_datetime] on one text: an instant, if the text can be read and
    the instant fits. *)
Definition to_timestamp (s : string) : result instant :=
  match parse_nanoseconds s with
  | None => Raise (ValueError "Unknown datetime string format")
  | Some n =>
      if in_bounds n then Ok (Ns n)
      else Raise (ValueError "Out of bounds nanosecond timestamp")
  end.

(** [pd.to_datetime] on a column: text is parsed, and one cell that fails
    fails the whole conversion; integers count nanoseconds; a float loses
    its fraction and a missing float is [NaT]. *)
Definition to_datetime (c : column) : result column :=
  match c with
  | Object xs => Datetime <$> mapM to_timestamp xs
  | Int64 xs => Ok (Datetime (map Ns xs))
  | Float64 xs =>
      Ok (Datetime (map (λ x, match x with
                              | NaN => NaT
                              | Fin v => Ns (Z.quot (Qnum v) (Zpos (Qden v)))
                              end) xs))
  | Datetime xs => Ok (Datetime xs)
  end.

(** ** DataFrames *)

Abbreviation DataFrame := (gmap string column).

(** [df[key]] *)
Definition getitem (df : DataFrame) (key : string) : result column :=
  match df !! key with
  | Some c => Ok c
  | None => Raise (KeyError key)
  end.

(** One element of a column. *)
Inductive value :=
| VFloat (x : float)
| VInt (z : Z)
| VStr (s : string)
| VTime (t : instant).

Definition items (c : column) : list value :=
  match c with
  | Float64 xs => map VFloat xs
  | Int64 xs => map VInt xs
  | Object xs => map VStr xs
  | Datetime xs => map VTime xs
  end.

(** [a == b] on scalars: missing values equal nothing, numbers compare by
    value, values of different kinds differ. *)
Definition value_eqb (a b : value) : bool :=
  match a, b with
  | VFloat (Fin x), VFloat (Fin y) => Qeq_bool x y
  | VFloat (Fin x), VInt y | VInt y, VFloat (Fin x) => Qeq_bool x (inject_Z y)
  | VInt x, VInt y => x =? y
  | VStr x, VStr y => String.eqb x y
  | VTime (Ns x), VTime (Ns y) => x =? y
  | _, _ => false
  end.

(** [series == v], element by element. *)
Definition eq_mask (series : column) (v : value) : list bool :=
  map (λ cell, value_eqb cell v) (items series).

(** The elements at the positions where the mask holds. *)
Fixpoint keep {A} (mask : list bool) (xs : list A) : list A :=
  match mask, xs with
  | b :: mask', x :: xs' => if b then x :: keep mask' xs' else keep mask' xs'
  | _, _ => []
  end.

Definition select (mask : list bool) (c : column) : column :=
  match c with
  | Float64 xs => Float64 (keep mask xs)
  | Int64 xs => Int64 (keep mask xs)
  | Object xs => Object (keep mask xs)
  | Datetime xs => Datetime (keep mask xs)
  end.

(** [df[mask]]: boolean indexing keeps the masked rows of every column. *)
Definition boolean_index (df : DataFrame) (mask : list bool) : DataFrame :=
  select mask <$> df.

(** [Series.unique]: first occurrences, in order of appearance; missing
    values count as one value. *)
Fixpoint unique_from {A} (same : A → A → bool) (seen l : list A) : list A :=
  match l with
  | [] => []
  | x :: l' =>
      if existsb (same x) seen then unique_from same seen l'
      else x :: unique_from same (x :: seen) l'
  end.

Definition float_same (a b : float) : bool :=
  match a, b with
  | NaN, NaN => true
  | Fin x, Fin y => Qeq_bool x y
  | _, _ => false
  end.

Definition instant_same (a b : instant) : bool :=
  match a, b with
  | NaT, NaT => true
  | Ns x, Ns y => x =? y
  | _, _ => false
  end.

Definition unique (c : column) : column :=
  match c with
  | Float64 xs => Float64 (unique_from float_same [] xs)
  | Int64 xs => Int64 (unique_from Z.eqb [] xs)
  | Object xs => Object (unique_from String.eqb [] xs)
  | Datetime xs => Datetime (unique_from instant_same [] xs)
  end.

(** [ndarray.sort]: ascending; missing values go last. *)
Definition float_le (a b : float) : Prop :=
  match a, b with
  | _, NaN => True
  | NaN, Fin _ => False
  | Fin x, Fin y => (x <= y)%Q
  end.

Definition instant_le (a b : instant) : Prop :=
  match a, b with
  | _, NaT => True
  | NaT, Ns _ => False
  | Ns x, Ns y => x ≤ y
  end.

#[global] Instance float_le_dec : RelDecision float_le.
Proof. intros [|x] [|y]; simpl; apply _. Defined.

#[global] Instance instant_le_dec : RelDecision instant_le.
Proof. intros [|x] [|y]; simpl; apply _. Defined.

Definition sort (c : column) : column :=
  match c with
  | Float64 xs => Float64 (merge_sort float_le xs)
  | Int64 xs => Int64 (merge_sort Z.le xs)
  | Object xs => Object (merge_sort String.le xs)
  | Datetime xs => Datetime (merge_sort instant_le xs)
  end.

(** ** [load_data] (app.py, lines 68-78) *)

(** What is found at [data/df_stable_only.csv]: nothing, a file that is no
    CSV table, or a file holding the table [raw]. *)
Inductive source :=
| Absent
| Malformed
| Present (raw : DataFrame).

Definition read_csv (src : source) : result DataFrame :=
  match src with
  | Absent => Raise FileNotFoundError
  | Malformed => Raise ParserError
  | Present raw => Ok raw
  end.

Definition load_data (src : source) : result (option DataFrame) :=
  let body :=
    df ← read_csv src;
    ts ← getitem df "Timestamp";
    ts' ← to_datetime ts;
    Ok (<["Timestamp" := ts']> df) in
  match body with
  | Ok df => Ok (Some df)
  | Raise FileNotFoundError => Ok None
  | Raise e => Raise e
  end.

(** ** [main] (app.py, lines 90-260) *)

(** Lines 104-106: the distinct batch identifiers, sorted. *)
Definition listBatchIds (df : DataFrame) : result column :=
  ids ← getitem df "batch_id";
  Ok (sort (unique ids)).

(** [st.sidebar.selectbox]: the option the operator picked ([choice] is its
    position, the first one unless the operator changes it); nothing when
    there are no options. *)
Definition selectbox (options : column) (choice : nat) : option value :=
  match items options with
  | [] => None
  | first :: _ => Some (nth choice (items options) first)
  end.

(** Line 119: the rows of the selected batch. *)
Definition filter_batch (df : DataFrame) (selected_batch_id : value)
  : result DataFrame :=
  ids ← getitem df "batch_id";
  Ok (boolean_index df (eq_mask ids selected_batch_id)).

Definition as_datetime (c : column) : result (list instant) :=
  match c with
  | Datetime ts => Ok ts
  | _ => Raise (TypeError "not a datetime column")
  end.

(** Lines 118-126: the batch, its time window and its duration. *)
Record summary := {
  batch_data : DataFrame;
  start_time : instant;
  end_time : instant;
  duration : float;
  date_str : string;
  time_range_str : string
}.

Definition summarize (df : DataFrame) (selected_batch_id : value)
  : result summary :=
  batch_data ← filter_batch df selected_batch_id;
  ts ← getitem batch_data "Timestamp" ≫= as_datetime;
  let start_time := time_min ts in
  let end_time := time_max ts in
  span ← time_sub end_time start_time;
  let duration := fdiv (total_seconds span) 60 in
  date_str ← strftime_date start_time;
  from ← strftime_clock start_time;
  to ← strftime_clock end_time;
  Ok {| batch_data := batch_data;
        start_time := start_time;
        end_time := end_time;
        duration := duration;
        date_str := date_str;
        time_range_str := from +:+ " - " +:+ to |}.

(** Lines 167-197: one [go.Scatter] trace. *)
Record trace := {
  name : string;
  x : column;
  y : column
}.

Definition scatter (batch_data : DataFrame) (variable name : string)
  : result trace :=
  x ← getitem batch_data "Timestamp";
  y ← getitem batch_data variable;
  Ok {| name := name; x := x; y := y |}.

(** The points of a trace, as the chart draws them: in row order. *)
Definition points (t : trace) : list (value * value) :=
  zip (items (x t)) (items (y t)).

(** The series of one variable of one batch that reaches the chart. *)
Definition seriesFor (df : DataFrame) (selected_batch_id : value)
    (variable : string) : result (list (value * value)) :=
  batch_data ← filter_batch df selected_batch_id;
  t ← scatter batch_data variable variable;
  Ok (points t).

(** The seven traces, in the order they are added to the figure. *)
Definition charted : list (string * string) :=
  [("Process Temp SP", "Process Temp SP");
   ("Process Temp", "Process Temp");
   ("Pressure SP", "Pressure SP");
   ("Inlet Steam Pressure", "Inlet P1");
   ("Outlet Steam Pressure", "Outlet P2");
   ("Steam Flow Rate", "Flow Rate");
   ("QualSteam Valve Opening", "Valve %")].

(** The five statistics cards, in the order they are shown. *)
Definition summarized : list (string * string) :=
  [("Process Temp", "Process Temp (°C)");
   ("Outlet Steam Pressure", "Outlet Pressure P2 (Bar)");
   ("Inlet Steam Pressure", "Inlet Pressure P1 (Bar)");
   ("Steam Flow Rate", "Steam Flow (kg/hr)");
   ("QualSteam Valve Opening", "Valve Opening (%)")].

Definition stat_card_with (pandas : reductions) (batch_data : DataFrame)
    (variable title : string) : result (string * stats) :=
  series ← getitem batch_data variable;
  st ← calculate_stats_with pandas series;
  Ok (title, st).

Definition stat_card : DataFrame → string → string → result (string * stats) :=
  stat_card_with nanops.

(** What the page shows for a batch. *)
Record page := {
  batch_card : value;
  date_card : string;
  time_range_card : string;
  duration_card : string;
  traces : list trace;
  stat_cards : list (string * stats)
}.

(** A run of the script ends at [st.stop()] after a message, or with the
    page rendered. *)
Inductive outcome :=
| Stopped (message : string)
| Rendered (p : page).

Definition main_with (pandas : reductions) (src : source) (choice : nat)
  : result outcome :=
  loaded ← load_data src;
  match loaded with
  | None => Ok (Stopped "⚠️ Data file not found at `data/df_stable_only.csv`. Please ensure the file exists in your repository.")
  | Some df =>
      unique_batches ← listBatchIds df;
      match selectbox unique_batches choice with
      | None => Ok (Stopped "No batches available.")
      | Some selected_batch_id =>
          s ← summarize df selected_batch_id;
          traces ← mapM (λ '(variable, name),
                           scatter (batch_data s) variable name) charted;
          cards ← mapM (λ '(variable, title),
                          stat_card_with pandas (batch_data s) variable title)
                     summarized;
          Ok (Rendered
                {| batch_card := selected_batch_id;
                   date_card := date_str s;
                   time_range_card := time_range_str s;
                   duration_card := format_f 2 (duration s) +:+ " mins";
                   traces := traces;
                   stat_cards := cards |})
      end
  end.

(** The script over the exact reductions. *)
Definition main : source → nat → result outcome := main_with nanops.

(** * Vocabulary of the properties *)

(** ** The five statistics

    The statistics of a non-empty list [vs] of valid values. *)
Definition is_mean (vs : list Q) (m : Q) : Prop :=
  (m * Qcount vs == Qsum vs)%Q.

Definition is_median (vs : list Q) (m : Q) : Prop :=
  ∃ sorted,
    sorted ≡ₚ vs ∧ Sorted Qle sorted
    ∧ let n := length vs in
      if Nat.odd n then sorted !! (n / 2)%nat = Some m
      else ∃ a b, sorted !! (n / 2 - 1)%nat = Some a
                  ∧ sorted !! (n / 2)%nat = Some b
                  ∧ m = ((a + b) / 2)%Q.

Definition is_maximum (vs : list Q) (m : Q) : Prop :=
  m ∈ vs ∧ Forall (λ v, (v <= m)%Q) vs.

Definition is_minimum (vs : list Q) (m : Q) : Prop :=
  m ∈ vs ∧ Forall (λ v, (m <= v)%Q) vs.

(** The sample variance: squared deviations from the mean, over N - 1. *)
Definition is_sample_variance (vs : list Q) (v : Q) : Prop :=
  (v * inject_Z (Z.of_nat (length vs) - 1)
   == sq_dev (Qsum vs / Qcount vs) vs)%Q.

(** The reductions of the series [xs] are the statistics of [vs]; the
    standard deviation is the root of the sample variance and needs two
    values. *)
Definition describes (vs : list Q) (xs : list float) : Prop :=
  match vs with
  | [] =>
      mean xs = NaN ∧ median xs = NaN ∧ maximum xs = NaN ∧ minimum xs = NaN
      ∧ std xs = Sqrt NaN
  | _ =>
      ∃ m md mx mn,
        mean xs = Fin m ∧ is_mean vs m
        ∧ median xs = Fin md ∧ is_median vs md
        ∧ maximum xs = Fin mx ∧ is_maximum vs mx
        ∧ minimum xs = Fin mn ∧ is_minimum vs mn
        ∧ match var 1 xs with
          | NaN => length vs = 1%nat ∧ std xs = Sqrt NaN
          | Fin v =>
              (2 ≤ length vs)%nat ∧ is_sample_variance vs v
              ∧ std xs = Sqrt (Fin v)
          end
  end.

(** The card of a variable that has no valid sample. *)
Definition undefined_stats : stats :=
  {| Mean := "nan"; Median := "nan"; Max := "nan"; Min := "nan";
     Std_Dev := "nan" |}.

(** [text] shows [x] rounded to the nearest multiple of [10^-prec], ties
    to the even one: it is the fixed-point text of an integer [m] of such
    units that lies within half a unit of [x], and [m] is even when [x] is
    exactly half a unit away.  The root of a negative number is no number. *)
Definition rounded_to (prec : nat) (x : number) (text : string) : Prop :=
  let p := inject_Z (10 ^ Z.of_nat prec) in
  match x with
  | Exact NaN | Sqrt NaN => text = "nan"
  | Exact (Fin v) =>
      ∃ m, text = fixed_point (Qnum v <? 0) prec m
           ∧ 0 ≤ m
           ∧ (Qabs (Qabs v * p - inject_Z m) <= 1 # 2)%Q
           ∧ ((Qabs (Qabs v * p - inject_Z m) == 1 # 2)%Q → Z.even m = true)
  | Sqrt (Fin v) =>
      ((v < 0)%Q → text = "nan")
      ∧ ((0 <= v)%Q →
         ∃ m, text = fixed_point false prec m
              ∧ 0 ≤ m
              ∧ (v * p * p
                 <= (inject_Z m + (1 # 2)) * (inject_Z m + (1 # 2)))%Q
              ∧ (0 < m →
                 ((inject_Z m - (1 # 2)) * (inject_Z m - (1 # 2))
                  <= v * p * p)%Q)
              ∧ ((v * p * p
                  == (inject_Z m + (1 # 2)) * (inject_Z m + (1 # 2)))%Q →
                 Z.even m = true)
              ∧ ((v * p * p
                  == (inject_Z m - (1 # 2)) * (inject_Z m - (1 # 2)))%Q →
                 Z.even m = true))
  end.

(** ** Missing values *)

(** The valid values of a series, in its order. *)
Definition non_missing (xs : list float) : list Q :=
  xs ≫= λ x, match x with
             | NaN => []
             | Fin q => [q]
             end.

(** A reduction came out as a number. *)
Definition defined (x : number) : Prop :=
  match x with
  | Exact (Fin _) => True
  | Sqrt (Fin v) => (0 <= v)%Q
  | Exact NaN | Sqrt NaN => False
  end.

(** What pandas documents for its reductions, whatever their rounding:
    missing values are skipped; a series without a valid value has no
    mean, median, maximum or minimum; the maximum and the minimum are the
    largest and the smallest valid value; the standard deviation (over
    N - 1) needs two valid values. *)
Definition skips_missing (pandas : reductions) : Prop :=
  ∀ xs,
    let vs := non_missing xs in
    (vs = [] →
     series_mean pandas xs = NaN ∧ series_median pandas xs = NaN
     ∧ series_max pandas xs = NaN ∧ series_min pandas xs = NaN)
    ∧ (vs ≠ [] →
       ∃ m md mx mn,
         series_mean pandas xs = Fin m ∧ series_median pandas xs = Fin md
         ∧ series_max pandas xs = Fin mx ∧ is_maximum vs mx
         ∧ series_min pandas xs = Fin mn ∧ is_minimum vs mn)
    ∧ (defined (series_std pandas xs) ↔ (2 ≤ length vs)%nat).

(** ** Order, identifiers, series *)

(** The natural order of each kind of value: numbers by value, text
    lexically, times chronologically; missing values last. *)
Definition value_le (a b : value) : Prop :=
  match a, b with
  | VFloat x, VFloat y => float_le x y
  | VInt x, VInt y => x ≤ y
  | VStr x, VStr y => String.le x y
  | VTime x, VTime y => instant_le x y
  | _, _ => False
  end.

(** Two cells hold the same value, as [unique] counts them. *)
Definition value_same (a b : value) : bool :=
  match a, b with
  | VFloat x, VFloat y => float_same x y
  | VInt x, VInt y => x =? y
  | VStr x, VStr y => String.eqb x y
  | VTime x, VTime y => instant_same x y
  | _, _ => false
  end.

(** Batch identifiers are integers or text. *)
Definition identifiers (c : column) : Prop :=
  match c with
  | Int64 _ | Object _ => True
  | Float64 _ | Datetime _ => False
  end.

(** A value that is not a missing one. *)
Definition present (v : value) : Prop :=
  match v with
  | VFloat NaN | VTime NaT => False
  | _ => True
  end.

(** A series whose Timestamps never decrease. *)
Definition chronological (pts : list (value * value)) : Prop :=
  Sorted value_le pts.*1.

(** ** Files the page can be drawn from

    A numeric column holds floats or integers. *)
Definition numeric (c : column) : Prop :=
  match c with
  | Float64 _ | Int64 _ => True
  | Object _ | Datetime _ => False
  end.

(** A date-time text in the layout [YYYY-MM-DD HH:MM:SS] whose instant
    lies within 2^62 nanoseconds of 1970 (the years 1824 to 2115): it is a
    nanosecond Timestamp, and no span between two such instants is too
    large for a Timedelta. *)
Definition plain_timestamp (text : string) : Prop :=
  ∃ n, parse_nanoseconds text = Some n ∧ - 2 ^ 62 < n < 2 ^ 62.

(** A file as the dashboard expects it: such date-time texts in Timestamp,
    one identifier per row in batch_id, at least one row, and the seven
    process variables as numeric columns. *)
Definition well_formed (raw : DataFrame) : Prop :=
  ∃ stamps ids,
    raw !! "Timestamp" = Some (Object stamps)
    ∧ Forall plain_timestamp stamps
    ∧ raw !! "batch_id" = Some ids
    ∧ identifiers ids
    ∧ length stamps = length (items ids)
    ∧ items ids ≠ []
    ∧ Forall (λ variable, ∃ c, raw !! variable = Some c ∧ numeric c)
        charted.*1.

(** ** Shape of a table *)

(** Every column of the table has [n] rows. *)
Definition rectangular (df : DataFrame) (n : nat) : Prop :=
  ∀ k c, df !! k = Some c → length (items c) = n.

(** The number of rows whose identifier equals [b]. *)
Definition batch_size (ids : column) (b : value) : nat :=
  length (filter (λ cell, value_eqb cell b) (items ids)).

(** Row [i] carries the identifier [b]. *)
Definition in_batch (ids : column) (b : value) (i : nat) : Prop :=
  ∃ cell, items ids !! i = Some cell ∧ value_eqb cell b = true.

(** * A small table

    Five readings of two batches, as [read_csv] delivers them.  The rows of
    batch 1 are not in time order. *)
Definition readings : DataFrame :=
  list_to_map
    [("Timestamp", Object ["2024-03-01 10:02:00"; "2024-03-01 10:00:00";
                           "2024-03-02 08:30:00"; "2024-03-01 10:01:00";
                           "2024-03-02 08:30:00"]);
     ("batch_id", Int64 [1; 1; 2; 1; 2]);
     ("Process Temp", Float64 [Fin 71; Fin 70; Fin 65; Fin 72; NaN]);
     ("Process Temp SP", Float64 [Fin 72; Fin 72; Fin 72; Fin 72; Fin 72]);
     ("Pressure SP", Float64 [Fin 3; Fin 3; Fin 3; Fin 3; Fin 3]);
     ("Inlet Steam Pressure",
      Float64 [Fin (41 # 10); Fin (42 # 10); Fin 4; Fin (43 # 10); Fin 4]);
     ("Outlet Steam Pressure",
      Float64 [Fin (29 # 10); Fin 3; NaN; Fin (31 # 10); NaN]);
     ("Steam Flow Rate", Float64 [Fin 120; Fin 118; Fin 90; Fin 125; Fin 91]);
     ("QualSteam Valve Opening", Int64 [40; 38; 20; 45; 20])].

(** [readings] once loaded: the Timestamp texts are instants now. *)
Definition loaded : DataFrame :=
  <["Timestamp" := Datetime [Ns 1709287320000000000; Ns 1709287200000000000;
                             Ns 1709368200000000000; Ns 1709287260000000000;
                             Ns 1709368200000000000]]> readings.

(** The same table with a column left out of the file. *)
Definition no_batch_column : DataFrame := delete "batch_id" readings.
Definition no_timestamp_column : DataFrame := delete "Timestamp" readings.

(** A file with the right columns and no row. *)
Definition no_rows : DataFrame :=
  list_to_map [("Timestamp", Object []); ("batch_id", Int64 [])].

(** A batch of a single reading, 7, before a batch of two. *)
Definition lone_reading : DataFrame :=
  list_to_map
    [("Timestamp", Object ["2024-03-01 10:00:00"; "2024-03-01 10:05:00";
                           "2024-03-01 10:06:00"]);
     ("batch_id", Int64 [7; 8; 8]);
     ("Process Temp", Float64 [Fin (1405 # 20); Fin 65; Fin 66]);
     ("Process Temp SP", Float64 [Fin 72; Fin 72; Fin 72]);
     ("Pressure SP", Float64 [Fin 3; Fin 3; Fin 3]);
     ("Inlet Steam Pressure", Float64 [Fin (41 # 10); Fin 4; Fin 4]);
     ("Outlet Steam Pressure", Float64 [NaN; Fin 3; Fin 3]);
     ("Steam Flow Rate", Float64 [Fin 120; Fin 90; Fin 91]);
     ("QualSteam Valve Opening", Int64 [40; 20; 20])].

(** * Properties *)

(** ** The order of the rationals *)

#[global] Instance Qle_total : Total Qle.
Proof. intros x y. unfold Qle. lia. Qed.

#[global] Instance Qle_transitive : Transitive Qle := Qle_trans.

(** ** The result monad *)

Lemma bind_Ok {A B} (m : result A) (f : A → result B) (b : B) :
  m ≫= f = Ok b → ∃ a, m = Ok a ∧ f a = Ok b.
Proof. destruct m as [a|e]; [eauto | discriminate]. Qed.

Tactic Notation "inv_bind" hyp(H) "as" simple_intropattern(a)
    simple_intropattern(Ha) :=
  apply bind_Ok in H as (a & Ha & H).

Lemma getitem_Ok (df : DataFrame) key c :
  getitem df key = Ok c ↔ df !! key = Some c.
Proof. unfold getitem. destruct (df !! key); split; congruence. Qed.

(** ** Formatting *)

Lemma string_of_uint_head d :
  ∃ c s, NilZero.string_of_uint d = String c s ∧ c ≠ "n"%char ∧ c ≠ "-"%char.
Proof. destruct d; simpl; eauto 10 with congruence. Qed.

Lemma fixed_point_not_nan negative prec m :
  fixed_point negative prec m ≠ "nan".
Proof.
  unfold fixed_point, string_of_N.
  destruct (string_of_uint_head (N.to_uint (Z.to_N (m / 10 ^ Z.of_nat prec))))
    as (c & s & -> & Hc & _).
  destruct negative; simpl; [discriminate | intros [= ? _]; done].
Qed.

Lemma format_f_defined prec v : format_f prec (Fin v) ≠ "nan".
Proof. apply fixed_point_not_nan. Qed.

(** ** Series with no or one valid value *)

Lemma Qsingle_mean v : (Qsum [v] / Qcount [v])%Q = v.
Proof.
  destruct v as [n d]. unfold Qsum, Qcount, Qdiv, Qmult, Qplus, Qinv. simpl.
  rewrite !Z.mul_1_r, !Pos.mul_1_r, Z.add_0_r. reflexivity.
Qed.

Section degenerate.
Context (xs : list float).

Lemma stats_of_none :
  dropna xs = [] →
  mean xs = NaN ∧ median xs = NaN ∧ maximum xs = NaN ∧ minimum xs = NaN
  ∧ var 1 xs = NaN.
Proof. unfold mean, median, maximum, minimum, var. intros ->. done. Qed.

Lemma stats_of_one v :
  dropna xs = [v] →
  mean xs = Fin v ∧ median xs = Fin v ∧ maximum xs = Fin v
  ∧ minimum xs = Fin v ∧ var 1 xs = NaN.
Proof.
  unfold mean, median, maximum, minimum, var. intros ->.
  rewrite Qsingle_mean. done.
Qed.
End degenerate.

Lemma dropna_all_missing xs : Forall (λ x, x = NaN) xs ↔ dropna xs = [].
Proof.
  unfold dropna. induction xs as [|[|v] xs IH]; simpl.
  - done.
  - rewrite Forall_cons. tauto.
  - split; [inversion 1; discriminate | discriminate].
Qed.

(** ** Variance is never negative *)

Lemma Qsum_nonneg vs : Forall (λ v, 0 ≤ Qnum v) vs → 0 ≤ Qnum (Qsum vs).
Proof.
  induction 1 as [|v vs Hv _ IH]; [done|].
  change (0 ≤ Qnum (v + Qsum vs)%Q). unfold Qplus. simpl.
  apply Z.add_nonneg_nonneg; apply Z.mul_nonneg_nonneg; lia.
Qed.

Lemma sq_dev_nonneg avg vs : 0 ≤ Qnum (sq_dev avg vs).
Proof.
  apply Qsum_nonneg, Forall_forall. intros w (v & -> & _)%list_elem_of_fmap.
  simpl. apply Z.square_nonneg.
Qed.

Lemma var_nonneg ddof xs v : var ddof xs = Fin v → 0 ≤ Qnum v.
Proof.
  unfold var. destruct (_ <=? _)%nat eqn:Hle; [discriminate|].
  intros [= <-]. apply Nat.leb_gt in Hle.
  pose proof (sq_dev_nonneg (Qsum (dropna xs) / Qcount (dropna xs)) (dropna xs)).
  set (a := sq_dev _ _) in *.
  destruct (Z.of_nat (length (dropna xs) - ddof)) eqn:Hn; try lia.
  unfold Qdiv, Qinv, inject_Z. simpl. lia.
Qed.

Lemma format_f_std_nan xs : format_f 4 (std xs) = "nan" ↔ var 1 xs = NaN.
Proof.
  unfold std. destruct (var 1 xs) as [|v] eqn:Hv; [done|].
  apply var_nonneg in Hv. unfold format_f.
  destruct (Z.ltb_spec (Qnum v) 0); [lia|].
  split; [|done]. intros []%fixed_point_not_nan.
Qed.

Lemma format_f_exact_nan prec (x : float) : format_f prec x = "nan" ↔ x = NaN.
Proof.
  destruct x as [|v]; [done|].
  split; [|done]. intros []%format_f_defined.
Qed.

(** ** [calculate_stats] on degenerate and arbitrary series *)

(** C10: [calculate_stats] is total on every real-valued series (float64 or
    int64), the empty one and the all-missing ones included: it returns its
    five strings and never raises, and a field reads "nan" exactly when
    the statistic behind it is undefined. *)
Theorem calculate_stats_total (xs : list float) (zs : list Z) :
  (∃ st, calculate_stats (Float64 xs) = Ok st
         ∧ (Mean st = "nan" ↔ mean xs = NaN)
         ∧ (Median st = "nan" ↔ median xs = NaN)
         ∧ (Max st = "nan" ↔ maximum xs = NaN)
         ∧ (Min st = "nan" ↔ minimum xs = NaN)
         ∧ (Std_Dev st = "nan" ↔ var 1 xs = NaN))
  ∧ (∃ st, calculate_stats (Int64 zs) = Ok st)
  ∧ calculate_stats (Float64 []) = Ok undefined_stats.
Proof.
  split; [|split; [|reflexivity]].
  - eexists. split; [reflexivity|]. simpl.
    auto using format_f_exact_nan, format_f_std_nan.
  - eexists. reflexivity.
Qed.

(** C5: when every row of the batch misses the variable, all five
    statistics are undefined ("nan"), and the caller can tell this from
    the one-sample case, where four fields are defined and only the
    standard deviation is "nan". *)
Theorem no_valid_sample_undefined (xs ys : list float) (v : Q) :
  Forall (λ x, x = NaN) xs →
  dropna ys = [v] →
  calculate_stats (Float64 xs) = Ok undefined_stats
  ∧ ∃ st, calculate_stats (Float64 ys) = Ok st
          ∧ Mean st ≠ "nan" ∧ Median st ≠ "nan" ∧ Max st ≠ "nan"
          ∧ Min st ≠ "nan" ∧ Std_Dev st = "nan"
          ∧ st ≠ undefined_stats.
Proof.
  intros Hxs%dropna_all_missing Hys.
  destruct (stats_of_none xs Hxs) as (Hm & Hd & Hx & Hn & Hv).
  destruct (stats_of_one ys v Hys) as (Hm' & Hd' & Hx' & Hn' & Hv').
  split.
  - unfold calculate_stats, calculate_stats_with. simpl. unfold std.
    rewrite Hm, Hd, Hx, Hn, Hv. done.
  - eexists. split; [reflexivity|]. simpl. unfold std.
    rewrite Hm', Hd', Hx', Hn', Hv'.
    repeat split; try apply fixed_point_not_nan.
    intros [= H%fixed_point_not_nan _ _ _]. done.
Qed.

Lemma no_valid_sample_undefined_witness :
  calculate_stats (Float64 [NaN; NaN]) = Ok undefined_stats
  ∧ ∃ st, calculate_stats (Float64 [NaN; Fin 70]) = Ok st
          ∧ Mean st ≠ "nan" ∧ Median st ≠ "nan" ∧ Max st ≠ "nan"
          ∧ Min st ≠ "nan" ∧ Std_Dev st = "nan"
          ∧ st ≠ undefined_stats.
Proof.
  apply (no_valid_sample_undefined [NaN; NaN] [NaN; Fin 70] 70).
  - repeat constructor.
  - reflexivity.
Defined.



(** ** Rounding *)

Lemma round_half_even_frac_close n d :
  0 < d →
  - d ≤ 2 * (n - round_half_even_frac n d * d) ≤ d.
Proof.
  intros Hd. unfold round_half_even_frac.
  pose proof (Z.div_mod n d ltac:(lia)) as Hn.
  pose proof (Z.mod_pos_bound n d Hd) as Hr.
  destruct (Z.compare_spec (2 * (n mod d)) d);
    [destruct (Z.even (n / d))|..]; nia.
Qed.

Lemma round_half_even_frac_tie n d :
  0 < d →
  2 * Z.abs (n - round_half_even_frac n d * d) = d →
  Z.even (round_half_even_frac n d) = true.
Proof.
  intros Hd. unfold round_half_even_frac.
  pose proof (Z.div_mod n d ltac:(lia)) as Hn.
  pose proof (Z.mod_pos_bound n d Hd) as Hr.
  destruct (Z.compare_spec (2 * (n mod d)) d) as [He|Hl|Hg].
  - destruct (Z.even (n / d)) eqn:Hev; [done|]. intros _.
    by rewrite Z.even_add, Hev.
  - intros H. nia.
  - intros H. nia.
Qed.

Lemma round_half_even_frac_nonneg n d :
  0 < d → 0 ≤ n → 0 ≤ round_half_even_frac n d.
Proof.
  intros Hd Hn. unfold round_half_even_frac.
  pose proof (Z.div_pos n d Hn Hd).
  destruct (_ ?= _); [destruct (Z.even _)|..]; lia.
Qed.

Lemma round_half_even_close v :
  (Qabs (v - inject_Z (round_half_even v)) <= 1 # 2)%Q.
Proof.
  destruct v as [n d]. unfold round_half_even. simpl.
  pose proof (round_half_even_frac_close n (Z.pos d) ltac:(lia)) as H.
  set (m := round_half_even_frac n (Z.pos d)) in *.
  unfold Qle, Qabs, Qminus, Qplus, Qopp, inject_Z. simpl.
  rewrite Pos.mul_1_r. lia.
Qed.

Lemma round_half_even_tie v :
  (Qabs (v - inject_Z (round_half_even v)) == 1 # 2)%Q →
  Z.even (round_half_even v) = true.
Proof.
  destruct v as [n d]. unfold round_half_even. simpl.
  pose proof (round_half_even_frac_tie n (Z.pos d) ltac:(lia)) as H.
  set (m := round_half_even_frac n (Z.pos d)) in *.
  unfold Qeq, Qabs, Qminus, Qplus, Qopp, inject_Z. simpl.
  rewrite Pos.mul_1_r. intros Htie. apply H. lia.
Qed.

Lemma round_half_even_nonneg v : (0 <= v)%Q → 0 ≤ round_half_even v.
Proof.
  destruct v as [n d]. unfold Qle, round_half_even. simpl. intros Hn.
  apply round_half_even_frac_nonneg; lia.
Qed.

Lemma round_sqrt_close n d p :
  0 ≤ n → 0 < d → 0 < p →
  let m := round_sqrt n d p in
  0 ≤ m
  ∧ 4 * n * p * p ≤ (2 * m + 1) * (2 * m + 1) * d
  ∧ (0 < m → (2 * m - 1) * (2 * m - 1) * d ≤ 4 * n * p * p)
  ∧ (4 * n * p * p = (2 * m + 1) * (2 * m + 1) * d → Z.even m = true)
  ∧ (4 * n * p * p = (2 * m - 1) * (2 * m - 1) * d → Z.even m = true).
Proof.
  intros Hn Hd Hp. unfold round_sqrt.
  assert (0 ≤ n * p * p) as Hnpp by nia.
  pose proof (Z.div_mod (n * p * p) d ltac:(lia)) as Hq.
  pose proof (Z.mod_pos_bound (n * p * p) d Hd) as Hr.
  assert (0 ≤ n * p * p / d) as Hq0 by (apply Z.div_pos; lia).
  pose proof (Z.sqrt_spec _ Hq0) as Hs. pose proof (Z.sqrt_nonneg (n * p * p / d)).
  set (k := Z.sqrt (n * p * p / d)) in *. set (t := n * p * p / d) in *.
  cbv zeta in Hs.
  assert (k * k * d ≤ n * p * p) as Hlo by nia.
  assert (n * p * p < (k + 1) * (k + 1) * d) as Hhi by nia.
  replace (4 * n * p * p) with (4 * (n * p * p)) by ring.
  set (w := n * p * p) in *.
  destruct (Z.compare_spec (4 * w) ((2 * k + 1) * (2 * k + 1) * d))
    as [He|Hl|Hg]; cbv zeta.
  - destruct (Z.even k) eqn:Hev.
    + split_and!; [lia|nia|intros; nia|done|done].
    + assert (Z.even (k + 1) = true) as Hev' by (by rewrite Z.even_add, Hev).
      split_and!; [lia|nia|intros; nia|done|done].
  - split_and!; [lia|nia|intros; nia|intros; nia|].
    intros Htie. assert (k = 0) as -> by nia. done.
  - split_and!; [lia|nia|intros; nia|intros; nia|intros; nia].
Qed.

Lemma format_f_rounded prec (x : float) : rounded_to prec x (format_f prec x).
Proof.
  destruct x as [|v]; [reflexivity|]. unfold rounded_to, format_f.
  eexists. split; [reflexivity|]. split_and!.
  - apply round_half_even_nonneg, Qmult_le_0_compat; [apply Qabs_nonneg|].
    unfold Qle, inject_Z. simpl.
    pose proof (Z.pow_pos_nonneg 10 (Z.of_nat prec)). lia.
  - apply round_half_even_close.
  - apply round_half_even_tie.
Qed.

Lemma format_f_sqrt_rounded prec v :
  rounded_to prec (Sqrt (Fin v)) (format_f prec (Sqrt (Fin v))).
Proof.
  unfold rounded_to, format_f. split.
  { unfold Qlt. simpl. intros Hv.
    destruct (Z.ltb_spec (Qnum v) 0); [done|lia]. }
  unfold Qle at 1. simpl. intros Hv.
  destruct (Z.ltb_spec (Qnum v) 0); [lia|].
  assert (0 < 10 ^ Z.of_nat prec) as Hp by (apply Z.pow_pos_nonneg; lia).
  destruct v as [n d]. simpl in *.
  destruct (round_sqrt_close n (Z.pos d) _ ltac:(lia) ltac:(lia) Hp)
    as (Hm & Hup & Hdn & Htie & Htie').
  set (p := 10 ^ Z.of_nat prec) in *. set (m := round_sqrt n (Z.pos d) p) in *.
  exists m. split; [reflexivity|]. split; [done|].
  unfold Qle, Qeq, Qmult, Qplus, Qminus, Qopp, inject_Z. simpl.
  rewrite !Pos.mul_1_r, !Z.mul_1_r. split_and!.
  - nia.
  - intros Hpos. specialize (Hdn Hpos). nia.
  - intros H'. apply Htie. nia.
  - intros H'. apply Htie'. nia.
Qed.

Lemma format_f_number_rounded prec (x : number) :
  rounded_to prec x (format_f prec x).
Proof.
  destruct x as [x|[|v]];
    [apply format_f_rounded|reflexivity|apply format_f_sqrt_rounded].
Qed.

(** ** What [calculate_stats] hands back *)

(** The example of the specification: three readings 70, 72, 71. *)
Example stats_of_three_readings :
  calculate_stats (Float64 [Fin 70; Fin 72; Fin 71])
  = Ok {| Mean := "71.00"; Median := "71.00"; Max := "72.00";
          Min := "70.00"; Std_Dev := "1.0000" |}.
Proof. reflexivity. Qed.

(** Ties go to the even neighbour: an eighth shows as "0.12", three
    eighths as "0.38". *)
Example ties_to_even :
  format_f 2 (Fin (1 # 8)) = "0.12" ∧ format_f 2 (Fin (3 # 8)) = "0.38"
  ∧ ¬ rounded_to 2 (Fin (1 # 8)) "0.13".
Proof.
  split_and!; [reflexivity..|].
  intros (m & Htext & Hm & Hclose & Htie).
  assert (m = 13) as ->.
  { destruct (decide (m = 13)) as [|Hne]; [done|]. exfalso.
    unfold Qle, Qabs, Qminus, Qplus, Qmult, Qopp, inject_Z in Hclose.
    simpl in Hclose.
    assert (m = 12) as -> by lia. vm_compute in Htext. done. }
  assert (Z.even 13 = true) by (apply Htie; reflexivity). done.
Qed.

(** C7, as the code has it: [calculate_stats] does the rounding itself.
    Whatever numbers the reductions return, every field is the text of its
    statistic rounded to the nearest hundredth (ten-thousandth for the
    standard deviation), ties to even, or "nan"; the statistic itself is
    not returned. *)
Theorem stats_are_rounded_text (pandas : reductions) (xs : list float) :
  ∃ st, calculate_stats_with pandas (Float64 xs) = Ok st
        ∧ rounded_to 2 (series_mean pandas xs) (Mean st)
        ∧ rounded_to 2 (series_median pandas xs) (Median st)
        ∧ rounded_to 2 (series_max pandas xs) (Max st)
        ∧ rounded_to 2 (series_min pandas xs) (Min st)
        ∧ rounded_to 4 (series_std pandas xs) (Std_Dev st).
Proof.
  eexists. split; [reflexivity|]. cbn [Mean Median Max Min Std_Dev].
  auto using format_f_rounded, format_f_number_rounded.
Qed.

(** C7 fails as stated: a mean of 1.001 comes back as the text "1.00",
    and a series whose mean is 1.002 gives the very same result. *)
Lemma stats_drop_precision :
  mean [Fin (1001 # 1000)] = Fin (1001 # 1000)
  ∧ mean [Fin (1002 # 1000)] = Fin (1002 # 1000)
  ∧ ∃ st, calculate_stats (Float64 [Fin (1001 # 1000)]) = Ok st
          ∧ Mean st = "1.00"
          ∧ calculate_stats (Float64 [Fin (1002 # 1000)]) = Ok st.
Proof. repeat split. eexists. repeat split. Qed.

(** ** Boolean indexing *)

Section keep.
Context {A B : Type}.
Implicit Types (mask : list bool) (xs : list A).

Lemma keep_fmap (f : A → B) mask xs :
  keep mask (f <$> xs) = f <$> keep mask xs.
Proof.
  revert xs. induction mask as [|[] mask IH]; intros [|x xs]; simpl;
    rewrite ?IH; done.
Qed.

Lemma keep_zip (f : A → bool) (ks : list A) (ys : list B) :
  keep (f <$> ks) ys = (filter (λ r, f r.1) (zip ks ys)).*2.
Proof.
  revert ys. induction ks as [|k ks IH]; intros [|y ys]; simpl; try done.
  rewrite filter_cons. simpl. destruct (f k) eqn:Hk; simpl.
  - f_equal. apply IH.
  - apply IH.
Qed.

Lemma keep_sublist mask xs : keep mask xs `sublist_of` xs.
Proof.
  revert xs. induction mask as [|[] mask IH]; intros [|x xs]; simpl;
    try constructor; auto using sublist_nil_l.
Qed.
End keep.

Lemma items_select mask c : items (select mask c) = keep mask (items c).
Proof. destruct c; simpl; by rewrite keep_fmap. Qed.

Lemma lookup_boolean_index (df : DataFrame) mask name :
  boolean_index df mask !! name = select mask <$> df !! name.
Proof. apply lookup_fmap. Qed.

Lemma elem_of_keep_lookup {A B} (f : A → bool) (ks : list A) (ys : list B)
    i k y :
  ks !! i = Some k → f k = true → ys !! i = Some y → y ∈ keep (f <$> ks) ys.
Proof.
  revert i ys. induction ks as [|k' ks IH]; intros [|i] [|y' ys]; simpl;
    try done.
  - intros [= ->] -> [= ->]. left.
  - intros Hk Hf Hy. destruct (f k'); [right|]; eauto.
Qed.

Lemma elem_of_keep_inv {A} (mask : list bool) (ys : list A) y :
  y ∈ keep mask ys → ∃ i, mask !! i = Some true ∧ ys !! i = Some y.
Proof.
  revert ys. induction mask as [|b mask IH]; intros [|y' ys]; simpl;
    try (by intros ?%elem_of_nil).
  destruct b.
  - intros [->|Hy]%elem_of_cons; [by exists 0%nat|].
    destruct (IH _ Hy) as (i & ? & ?). by exists (S i).
  - intros Hy. destruct (IH _ Hy) as (i & ? & ?). by exists (S i).
Qed.

Lemma length_keep_le {A B} (f : A → bool) (ks : list A) (xs : list B) :
  (length (keep (f <$> ks) xs) ≤ length (filter f ks))%nat.
Proof.
  revert xs. induction ks as [|k ks IH]; intros [|x xs]; simpl; try lia.
  rewrite filter_cons. specialize (IH xs).
  change (list_fmap A bool f ks) with (f <$> ks).
  destruct (f k); simpl; lia.
Qed.

Lemma in_batch_mask ids b i : eq_mask ids b !! i = Some true ↔ in_batch ids b i.
Proof.
  unfold eq_mask, in_batch. rewrite list_lookup_fmap. split.
  - destruct (items ids !! i) as [cell|]; simpl; [|done]. intros [= ?]. eauto.
  - intros (cell & -> & Hcell). simpl. by rewrite Hcell.
Qed.

Lemma length_keep {A B} (f : A → bool) (ks : list A) (xs : list B) :
  length xs = length ks → length (keep (f <$> ks) xs) = length (filter f ks).
Proof.
  revert xs. induction ks as [|k ks IH]; intros [|x xs]; simpl; try done.
  intros [= Hlen]. rewrite filter_cons. destruct (f k); simpl; auto.
Qed.

(** ** Distinct values and sorting *)

Section unique_from.
Context {A : Type} (same : A → A → bool).
Implicit Types (seen l : list A).

Lemma unique_from_subseteq seen l : unique_from same seen l ⊆ l.
Proof.
  revert seen. induction l as [|x l IH]; intros seen; simpl; [done|].
  destruct (existsb _ _).
  - etrans; [apply IH|]. set_solver.
  - specialize (IH (x :: seen)). set_solver.
Qed.

Lemma unique_from_unseen seen l x :
  x ∈ unique_from same seen l → existsb (same x) seen = false.
Proof.
  revert seen. induction l as [|y l IH]; intros seen; simpl.
  - by intros ?%elem_of_nil.
  - destruct (existsb (same y) seen) eqn:Hy; [apply IH|].
    intros [->|Hx%IH]%elem_of_cons; [done|].
    simpl in Hx. by apply orb_false_elim in Hx as [_ ?].
Qed.

Lemma unique_from_covers seen l x :
  same x x = true → x ∈ l →
  existsb (same x) seen = true
  ∨ ∃ y, y ∈ unique_from same seen l ∧ same x y = true.
Proof.
  intros Hrefl. revert seen. induction l as [|z l IH]; intros seen Hx; simpl.
  - by apply elem_of_nil in Hx.
  - apply elem_of_cons in Hx as [->|Hx].
    + destruct (existsb (same z) seen); [by left|].
      right. exists z. split; [left|done].
    + destruct (existsb (same z) seen) eqn:Hz; [by apply IH|].
      destruct (IH (z :: seen) Hx) as [Hseen|(y & Hy & Hxy)].
      * simpl in Hseen. apply orb_true_iff in Hseen as [Hxz|?]; [|by left].
        right. exists z. split; [left|done].
      * right. exists y. split; [by right|done].
Qed.

Lemma NoDup_unique_from_refl seen l :
  (∀ a, same a a = true) → NoDup (unique_from same seen l).
Proof.
  intros Hrefl. revert seen. induction l as [|y l IH]; intros seen; simpl.
  - constructor.
  - destruct (existsb _ _); [apply IH|]. constructor; [|apply IH].
    intros Hy%unique_from_unseen. simpl in Hy. by rewrite Hrefl in Hy.
Qed.

End unique_from.

#[global] Instance float_le_total : Total float_le.
Proof. intros [|x] [|y]; simpl; auto. apply Qle_total. Qed.

#[global] Instance instant_le_total : Total instant_le.
Proof. intros [|x] [|y]; simpl; auto. lia. Qed.

Lemma items_unique_subseteq c : items (unique c) ⊆ items c.
Proof.
  destruct c; simpl; intros v (a & -> & Ha)%list_elem_of_fmap;
    apply list_elem_of_fmap_2; eapply unique_from_subseteq, Ha.
Qed.

Lemma items_sort c : items (sort c) ≡ₚ items c.
Proof. destruct c; simpl; apply fmap_Permutation, merge_sort_Permutation. Qed.

Lemma items_listed_nil c : items (sort (unique c)) = [] → items c = [].
Proof.
  intros Hnil. pose proof (items_sort (unique c)) as Hperm.
  rewrite Hnil in Hperm. apply Permutation_nil_l in Hperm.
  destruct c as [[|??]|[|??]|[|??]|[|??]]; done.
Qed.

Lemma Sorted_items_sort c : Sorted value_le (items (sort c)).
Proof.
  destruct c; simpl;
    (eapply Sorted_fmap; [|apply Sorted_merge_sort; apply _]); done.
Qed.

Lemma selectbox_elem_of options choice v :
  selectbox options choice = Some v → v ∈ items options.
Proof.
  unfold selectbox. destruct (items options) as [|first l] eqn:E; [done|].
  intros [= <-]. change (nth choice (first :: l) first ∈ first :: l).
  rewrite nth_lookup.
  destruct ((first :: l) !! choice) as [w|] eqn:Hw; simpl.
  - by eapply list_elem_of_lookup_2.
  - left.
Qed.

Lemma selectbox_None options choice :
  selectbox options choice = None ↔ items options = [].
Proof. unfold selectbox. destruct (items options); done. Qed.

(** ** The list of batches *)

#[global] Instance VInt_inj : Inj (=) (=) VInt.
Proof. by intros ?? [=]. Qed.

#[global] Instance VStr_inj : Inj (=) (=) VStr.
Proof. by intros ?? [=]. Qed.

Lemma float_same_refl x : float_same x x = true.
Proof. destruct x; [done|apply Qeq_bool_refl]. Qed.

Lemma instant_same_refl t : instant_same t t = true.
Proof. destruct t; [done|apply Z.eqb_refl]. Qed.

Lemma value_same_refl v : value_same v v = true.
Proof.
  destruct v; simpl;
    auto using float_same_refl, Z.eqb_refl, String.eqb_refl, instant_same_refl.
Qed.

#[global] Instance VFloat_inj : Inj (=) (=) VFloat.
Proof. by intros ?? [=]. Qed.

#[global] Instance VTime_inj : Inj (=) (=) VTime.
Proof. by intros ?? [=]. Qed.

Lemma NoDup_items_unique c : NoDup (items (unique c)).
Proof.
  destruct c; simpl; apply (NoDup_fmap_2 _), NoDup_unique_from_refl;
    auto using float_same_refl, Z.eqb_refl, String.eqb_refl, instant_same_refl.
Qed.

Lemma items_unique_covers c v :
  v ∈ items c → ∃ w, w ∈ items (unique c) ∧ value_same v w = true.
Proof.
  destruct c as [xs|xs|xs|xs]; simpl; intros (a & -> & Ha)%list_elem_of_fmap.
  - destruct (unique_from_covers float_same [] xs a (float_same_refl a) Ha)
      as [?|(y & Hy & ?)]; [done|].
    exists (VFloat y). split; [by apply list_elem_of_fmap_2|done].
  - destruct (unique_from_covers Z.eqb [] xs a (Z.eqb_refl a) Ha)
      as [?|(y & Hy & ?)]; [done|].
    exists (VInt y). split; [by apply list_elem_of_fmap_2|done].
  - destruct (unique_from_covers String.eqb [] xs a (String.eqb_refl a) Ha)
      as [?|(y & Hy & ?)]; [done|].
    exists (VStr y). split; [by apply list_elem_of_fmap_2|done].
  - destruct (unique_from_covers instant_same [] xs a (instant_same_refl a) Ha)
      as [?|(y & Hy & ?)]; [done|].
    exists (VTime y). split; [by apply list_elem_of_fmap_2|done].
Qed.

Lemma value_same_identifiers c v w :
  identifiers c → v ∈ items c → value_same v w = true → v = w.
Proof.
  destruct c as [|xs|xs|]; simpl; try done;
    intros _ (a & -> & _)%list_elem_of_fmap; destruct w; simpl; try done.
  - by intros ->%Z.eqb_eq.
  - by intros ->%String.eqb_eq.
Qed.

(** The examples of the specification: [3, 1, 2] comes back as [1, 2, 3],
    and 10 does not sort before 2. *)
Example listBatchIds_3_1_2 :
  listBatchIds {["batch_id" := Int64 [3; 1; 2]]} = Ok (Int64 [1; 2; 3]).
Proof. reflexivity. Qed.

Example listBatchIds_10_2 :
  listBatchIds {["batch_id" := Int64 [10; 2; 10; 2]]} = Ok (Int64 [2; 10]).
Proof. reflexivity. Qed.



(** ** Selecting a batch *)

Example load_readings : load_data (Present readings) = Ok (Some loaded).
Proof. reflexivity. Qed.

Lemma value_eqb_refl v : present v → value_eqb v v = true.
Proof.
  destruct v as [[|x]|z|s|[|n]]; simpl; try done; intros _.
  - apply Qeq_bool_refl.
  - apply Z.eqb_refl.
  - apply String.eqb_refl.
  - apply Z.eqb_refl.
Qed.

Lemma filter_batch_Ok (df : DataFrame) ids b :
  df !! "batch_id" = Some ids →
  filter_batch df b = Ok (boolean_index df (eq_mask ids b)).
Proof. intros Hids%getitem_Ok. unfold filter_batch. by rewrite Hids. Qed.

Lemma filter_batch_inv (df bd : DataFrame) b :
  filter_batch df b = Ok bd →
  ∃ ids, df !! "batch_id" = Some ids ∧ bd = boolean_index df (eq_mask ids b).
Proof.
  unfold filter_batch. intros H. inv_bind H as ids Hids.
  apply getitem_Ok in Hids. injection H as <-. eauto.
Qed.

(** ** The charted series *)

#[global] Instance value_le_trans : Transitive value_le.
Proof.
  intros [[|x]|x|x|[|x]] [[|y]|y|y|[|y]] [[|z]|z|z|[|z]]; simpl;
    first [done | lia | apply Qle_trans | apply (transitivity (R := String.le))].
Qed.

Lemma StronglySorted_sublist {A} (R : relation A) (l k : list A) :
  l `sublist_of` k → StronglySorted R k → StronglySorted R l.
Proof.
  induction 1 as [|x l k Hlk IH|x l k Hlk IH]; intros Hk; [done|..].
  - apply StronglySorted_inv in Hk as [Hk Hx]. constructor; [auto|].
    rewrite Forall_forall in *. intros y Hy%(sublist_subseteq _ _ Hlk). auto.
  - apply StronglySorted_inv in Hk as [Hk _]. auto.
Qed.

Lemma zip_fst_sublist {A B} (l : list A) (k : list B) :
  (zip l k).*1 `sublist_of` l.
Proof.
  revert k. induction l as [|x l IH]; intros [|y k]; simpl;
    try constructor; auto using sublist_nil_l.
Qed.

Lemma keep_zip_with {A B} mask (l : list A) (k : list B) :
  keep mask (zip l k) = zip (keep mask l) (keep mask k).
Proof.
  revert l k. induction mask as [|[] mask IH]; intros [|x l] [|y k]; simpl;
    rewrite ?zip_with_nil_r, ?IH; done.
Qed.

Lemma seriesFor_Ok (df : DataFrame) ids ts ys b variable :
  df !! "batch_id" = Some ids → df !! "Timestamp" = Some ts →
  df !! variable = Some ys →
  seriesFor df b variable
  = Ok (keep (eq_mask ids b) (zip (items ts) (items ys))).
Proof.
  intros Hids Hts Hys. unfold seriesFor, scatter, getitem.
  rewrite (filter_batch_Ok df ids b Hids). simpl.
  rewrite !lookup_boolean_index, Hts, Hys. simpl.
  unfold points. simpl. by rewrite !items_select, keep_zip_with.
Qed.

(** C2, as the code has it: the series that reaches the chart is made of
    the (Timestamp, value) pairs of the batch's rows in the order of the
    table.  Nothing sorts it: it is ascending in time when the table's
    Timestamp column is. *)
Theorem seriesFor_table_order (df : DataFrame) (ids ts ys : column)
    (b : value) (variable : string) :
  df !! "batch_id" = Some ids →
  df !! "Timestamp" = Some ts →
  df !! variable = Some ys →
  ∃ pts,
    seriesFor df b variable = Ok pts
    ∧ pts = (filter (λ r, value_eqb r.1 b)
               (zip (items ids) (zip (items ts) (items ys)))).*2
    ∧ (Sorted value_le (items ts) → chronological pts).
Proof.
  intros Hids Hts Hys. eexists. split; [by apply seriesFor_Ok|]. split.
  - apply (keep_zip (λ cell, value_eqb cell b)).
  - intros Hsorted%(Sorted_StronglySorted _). apply StronglySorted_Sorted.
    eapply StronglySorted_sublist; [|apply Hsorted].
    rewrite keep_zip_with. etrans; [apply zip_fst_sublist|apply keep_sublist].
Qed.

Lemma seriesFor_table_order_witness :
  ∃ pts,
    seriesFor loaded (VInt 2) "Steam Flow Rate" = Ok pts
    ∧ pts = (filter (λ r, value_eqb r.1 (VInt 2))
               (zip (items (Int64 [1; 1; 2; 1; 2]))
                  (zip (items (Datetime [Ns 1709287320000000000;
                                         Ns 1709287200000000000;
                                         Ns 1709368200000000000;
                                         Ns 1709287260000000000;
                                         Ns 1709368200000000000]))
                     (items (Float64 [Fin 120; Fin 118; Fin 90; Fin 125;
                                      Fin 91]))))).*2
    ∧ (Sorted value_le
         (items (Datetime [Ns 1709287320000000000; Ns 1709287200000000000;
                           Ns 1709368200000000000; Ns 1709287260000000000;
                           Ns 1709368200000000000])) →
       chronological pts).
Proof.
  apply (seriesFor_table_order loaded); reflexivity.
Defined.

(** C2 fails as stated: the three readings of batch 1 stand in the table
    at 10:02, 10:00, 10:01, and that is the order the chart receives. *)
Lemma series_not_sorted :
  seriesFor loaded (VInt 1) "Process Temp"
  = Ok [(VTime (Ns 1709287320000000000), VFloat (Fin 71));
        (VTime (Ns 1709287200000000000), VFloat (Fin 70));
        (VTime (Ns 1709287260000000000), VFloat (Fin 72))]
  ∧ ¬ chronological [(VTime (Ns 1709287320000000000), VFloat (Fin 71));
                     (VTime (Ns 1709287200000000000), VFloat (Fin 70));
                     (VTime (Ns 1709287260000000000), VFloat (Fin 72))].
Proof.
  split; [reflexivity|]. unfold chronological. simpl.
  intros [_ Hhd]%Sorted_inv. apply HdRel_inv in Hhd. simpl in Hhd. lia.
Qed.

(** ** The time window of a batch *)

Lemma foldl_min_spec n ns :
  foldl Z.min n ns ∈ n :: ns ∧ ∀ x, x ∈ n :: ns → foldl Z.min n ns ≤ x.
Proof.
  revert n. induction ns as [|m ns IH]; intros n; simpl.
  - split; [left|]. intros x ->%list_elem_of_singleton. done.
  - destruct (IH (Z.min n m)) as [Hin Hle]. split.
    + apply elem_of_cons in Hin as [Hin|Hin]; [|by do 2 right].
      rewrite Hin. destruct (Z.min_spec n m) as [[_ ->]|[_ ->]];
        [left|right; left].
    + intros x Hx. pose proof (Hle (Z.min n m) ltac:(left)).
      rewrite !elem_of_cons in Hx. destruct Hx as [->|[->|Hx]]; [lia..|].
      apply Hle. by right.
Qed.

Lemma foldl_max_spec n ns :
  foldl Z.max n ns ∈ n :: ns ∧ ∀ x, x ∈ n :: ns → x ≤ foldl Z.max n ns.
Proof.
  revert n. induction ns as [|m ns IH]; intros n; simpl.
  - split; [left|]. intros x ->%list_elem_of_singleton. done.
  - destruct (IH (Z.max n m)) as [Hin Hle]. split.
    + apply elem_of_cons in Hin as [Hin|Hin]; [|by do 2 right].
      rewrite Hin. destruct (Z.max_spec n m) as [[_ ->]|[_ ->]];
        [right; left|left].
    + intros x Hx. pose proof (Hle (Z.max n m) ltac:(left)).
      rewrite !elem_of_cons in Hx. destruct Hx as [->|[->|Hx]]; [lia..|].
      apply Hle. by right.
Qed.

Lemma elem_of_valid_times ts n : n ∈ valid_times ts ↔ Ns n ∈ ts.
Proof.
  unfold valid_times. rewrite list_elem_of_omap. split.
  - intros ([|m] & Hm & [=]). by subst.
  - intros Hn. by exists (Ns n).
Qed.

Lemma time_window ts lo :
  time_min ts = Ns lo →
  ∃ hi, time_max ts = Ns hi ∧ Ns lo ∈ ts ∧ Ns hi ∈ ts
        ∧ ∀ n, Ns n ∈ ts → lo ≤ n ≤ hi.
Proof.
  unfold time_min, time_max. destruct (valid_times ts) as [|n ns] eqn:Hv;
    [done|].
  intros [= <-]. eexists. split; [done|].
  destruct (foldl_min_spec n ns) as [Hmin Hle].
  destruct (foldl_max_spec n ns) as [Hmax Hge].
  rewrite <-Hv in Hmin, Hmax, Hle, Hge. setoid_rewrite elem_of_valid_times in Hle.
  setoid_rewrite elem_of_valid_times in Hge.
  apply elem_of_valid_times in Hmin, Hmax. auto.
Qed.

Lemma summarize_inv (df : DataFrame) b s :
  summarize df b = Ok s →
  ∃ ts lo,
    filter_batch df b = Ok (batch_data s)
    ∧ batch_data s !! "Timestamp" = Some (Datetime ts)
    ∧ start_time s = time_min ts ∧ end_time s = time_max ts
    ∧ time_min ts = Ns lo
    ∧ ∃ span, time_sub (time_max ts) (time_min ts) = Ok span
              ∧ duration s = fdiv (total_seconds span) 60.
Proof.
  unfold summarize. intros H. inv_bind H as bd Hbd. inv_bind H as ts Hts.
  inv_bind Hts as c Hc. apply getitem_Ok in Hc.
  destruct c as [| | |ts']; try done. injection Hts as ->.
  inv_bind H as span Hspan.
  inv_bind H as date Hdate. inv_bind H as from Hfrom. inv_bind H as to Hto.
  injection H as <-. simpl.
  destruct (time_min ts) as [|lo] eqn:Hlo; [done|].
  exists ts, lo. rewrite Hlo. split_and!; [done..|]. by exists span.
Qed.

Lemma summarize_texts (df : DataFrame) b s :
  summarize df b = Ok s →
  strftime_date (start_time s) = Ok (date_str s)
  ∧ ∃ from to,
      strftime_clock (start_time s) = Ok from
      ∧ strftime_clock (end_time s) = Ok to
      ∧ time_range_str s = from +:+ " - " +:+ to.
Proof.
  unfold summarize. intros H. inv_bind H as bd Hbd. inv_bind H as ts Hts.
  inv_bind H as span Hspan.
  inv_bind H as date Hdate. inv_bind H as from Hfrom. inv_bind H as to Hto.
  injection H as <-. simpl. split; [done|]. by exists from, to.
Qed.

Lemma strftime_date_Ok n : ∃ text, strftime_date (Ns n) = Ok text.
Proof.
  unfold strftime_date. destruct (civil_from_days _) as [[y m] d]. eauto.
Qed.

Lemma strftime_clock_Ok n : ∃ text, strftime_clock (Ns n) = Ok text.
Proof. unfold strftime_clock. eauto. Qed.

Lemma in_bounds_spec n : in_bounds n = true ↔ - 2 ^ 63 < n < 2 ^ 63.
Proof. unfold in_bounds. rewrite andb_true_iff, !Z.ltb_lt. done. Qed.

Lemma time_sub_Ok hi lo :
  - 2 ^ 63 < hi - lo < 2 ^ 63 → time_sub (Ns hi) (Ns lo) = Ok (Ns (hi - lo)).
Proof. intros H%in_bounds_spec. unfold time_sub. by rewrite H. Qed.

Lemma summarize_Ok (df : DataFrame) ids ts b lo hi :
  df !! "batch_id" = Some ids →
  df !! "Timestamp" = Some (Datetime ts) →
  time_min (keep (eq_mask ids b) ts) = Ns lo →
  time_max (keep (eq_mask ids b) ts) = Ns hi →
  hi - lo < 2 ^ 63 →
  ∃ s, summarize df b = Ok s
       ∧ batch_data s = boolean_index df (eq_mask ids b)
       ∧ start_time s = Ns lo ∧ end_time s = Ns hi
       ∧ duration s = Fin (((hi - lo) # 1000000000) / 60).
Proof.
  intros Hids Hts Hlo Hhi Hfit. unfold summarize, getitem.
  rewrite (filter_batch_Ok df ids b Hids). cbn [mbind result_bind].
  rewrite lookup_boolean_index, Hts. cbn [fmap option_fmap option_map select
    mbind result_bind as_datetime]. rewrite Hlo, Hhi.
  destruct (time_window _ lo Hlo) as (hi' & Hhi' & Hlo_in & _ & Hbounds).
  specialize (Hbounds lo Hlo_in). assert (hi' = hi) as -> by congruence.
  rewrite time_sub_Ok by lia. cbn [mbind result_bind].
  destruct (strftime_date_Ok lo) as [date ->].
  destruct (strftime_clock_Ok lo) as [from ->].
  destruct (strftime_clock_Ok hi) as [to ->].
  cbn [mbind result_bind]. eexists. split; [reflexivity|]. done.
Qed.

Lemma summarize_span (df : DataFrame) b s :
  summarize df b = Ok s →
  ∃ ts lo hi,
    batch_data s !! "Timestamp" = Some (Datetime ts)
    ∧ time_min ts = Ns lo ∧ time_max ts = Ns hi
    ∧ start_time s = Ns lo ∧ end_time s = Ns hi
    ∧ lo ≤ hi ∧ hi - lo < 2 ^ 63
    ∧ duration s = Fin (((hi - lo) # 1000000000) / 60).
Proof.
  intros (ts & lo & _ & Hts & Hstart & Hend & Hlo & span & Hspan & Hdur)%summarize_inv.
  destruct (time_window ts lo Hlo) as (hi & Hhi & Hlo_in & _ & Hbounds).
  specialize (Hbounds lo Hlo_in).
  rewrite Hlo, Hhi in Hspan. unfold time_sub in Hspan.
  destruct (in_bounds (hi - lo)) eqn:Hfit; [|done]. injection Hspan as <-.
  apply in_bounds_spec in Hfit.
  exists ts, lo, hi. split_and!; try done; try congruence; lia.
Qed.

(** No summary comes out of an empty restriction: the earliest Timestamp
    of no row is [NaT], and [NaT.strftime] raises. *)
Lemma summarize_nothing (df : DataFrame) ids ts b :
  df !! "batch_id" = Some ids →
  df !! "Timestamp" = Some (Datetime ts) →
  (∀ i, ¬ in_batch ids b i) →
  summarize df b = Raise (ValueError "NaTType does not support strftime").
Proof.
  intros Hids Hts Hnone. unfold summarize, getitem.
  rewrite (filter_batch_Ok df ids b Hids). cbn [mbind result_bind].
  rewrite lookup_boolean_index, Hts. cbn [fmap option_fmap option_map select
    mbind result_bind as_datetime].
  assert (keep (eq_mask ids b) ts = []) as ->; [|done].
  destruct (keep (eq_mask ids b) ts) as [|t rest] eqn:Hkeep; [done|].
  assert (t ∈ keep (eq_mask ids b) ts) as Ht by (rewrite Hkeep; left).
  apply elem_of_keep_inv in Ht as (i & Hi%in_batch_mask & _).
  by destruct (Hnone i).
Qed.

Lemma summarize_has_row (df : DataFrame) ids b s :
  df !! "batch_id" = Some ids →
  summarize df b = Ok s → ∃ i, in_batch ids b i.
Proof.
  intros Hids (ts & lo & Hbd & Hts & _ & _ & Hlo & _)%summarize_inv.
  apply filter_batch_inv in Hbd as (ids' & Hids' & Hbd).
  assert (ids' = ids) as -> by congruence.
  rewrite Hbd, lookup_boolean_index in Hts.
  destruct (df !! "Timestamp") as [[| | |ts']|]; try done.
  injection Hts as <-.
  destruct (time_window _ lo Hlo) as (hi & _ & Hlo_in & _).
  apply elem_of_keep_inv in Hlo_in as (i & Hi%in_batch_mask & _). eauto.
Qed.

Lemma summarize_present (df : DataFrame) ids ts b :
  df !! "batch_id" = Some ids →
  df !! "Timestamp" = Some (Datetime ts) →
  length ts = length (items ids) →
  Forall (λ t, t ≠ NaT) ts →
  b ∈ items ids →
  present b →
  (∀ n m, Ns n ∈ keep (eq_mask ids b) ts → Ns m ∈ keep (eq_mask ids b) ts →
          n - m < 2 ^ 63) →
  ∃ s lo hi,
    summarize df b = Ok s
    ∧ batch_data s = boolean_index df (eq_mask ids b)
    ∧ start_time s = Ns lo ∧ end_time s = Ns hi
    ∧ duration s = Fin (((hi - lo) # 1000000000) / 60)
    ∧ time_min (keep (eq_mask ids b) ts) = Ns lo
    ∧ time_max (keep (eq_mask ids b) ts) = Ns hi.
Proof.
  intros Hids Hts Hlen Hvalid Hb Hpresent Hfit.
  set (batch_times := keep (eq_mask ids b) ts) in *.
  assert (∃ n, Ns n ∈ batch_times) as [n Hn].
  { apply list_elem_of_lookup_1 in Hb as [i Hi].
    destruct (lookup_lt_is_Some_2 ts i) as [t Ht].
    { rewrite Hlen. by eapply lookup_lt_Some. }
    assert (t ≠ NaT) as Hnat.
    { rewrite Forall_forall in Hvalid. eapply Hvalid, list_elem_of_lookup_2, Ht. }
    destruct t as [|n]; [done|]. exists n.
    apply (elem_of_keep_lookup (λ cell, value_eqb cell b) _ _ i b); auto.
    by apply value_eqb_refl. }
  destruct (time_min batch_times) as [|lo] eqn:Hlo.
  { unfold time_min in Hlo. apply elem_of_valid_times in Hn.
    destruct (valid_times batch_times); [by apply elem_of_nil in Hn|done]. }
  destruct (time_window batch_times lo Hlo) as (hi & Hhi & Hlo_in & Hhi_in & _).
  destruct (summarize_Ok df ids ts b lo hi Hids Hts Hlo Hhi)
    as (s & Hs & Hbd & Hstart & Hend & Hdur); [by apply Hfit|].
  exists s, lo, hi. done.
Qed.

(** C1, as the code has it: the batch data are exactly the rows whose
    batch_id equals the selected identifier, column by column and in table
    order.  No summary comes out of an empty restriction, but there is no
    BatchNotFound: the run ends in the [ValueError] of [NaT.strftime].
    The script never gets there: the identifier is picked from the table's
    own list, so unless it is a missing value it has rows, and the pick
    only fails when the table has no row at all, where the script says
    "No batches available." and stops. *)
Theorem batch_restriction (df : DataFrame) (ids : column) (b : value) :
  df !! "batch_id" = Some ids →
  (∃ bd, filter_batch df b = Ok bd
         ∧ (∀ name c, df !! name = Some c →
              ∃ c', bd !! name = Some c'
                    ∧ items c'
                      = (filter (λ r, value_eqb r.1 b)
                           (zip (items ids) (items c))).*2)
         ∧ (∀ name, df !! name = None → bd !! name = None))
  ∧ (∀ s, summarize df b = Ok s → ∃ i, in_batch ids b i)
  ∧ (∀ ts, df !! "Timestamp" = Some (Datetime ts) →
       (∀ i, ¬ in_batch ids b i) →
       summarize df b
       = Raise (ValueError "NaTType does not support strftime"))
  ∧ (∀ choice, selectbox (sort (unique ids)) choice = Some b →
       present b → ∃ i, in_batch ids b i)
  ∧ (∀ choice, selectbox (sort (unique ids)) choice = None →
       items ids = []
       ∧ ∀ pandas src, load_data src = Ok (Some df) →
           main_with pandas src choice = Ok (Stopped "No batches available.")).
Proof.
  intros Hids. split_and!.
  - eexists. split; [by apply filter_batch_Ok|]. split.
    + intros name c Hc. eexists. split.
      * rewrite lookup_boolean_index, Hc. reflexivity.
      * rewrite items_select.
        apply (keep_zip (λ cell, value_eqb cell b) (items ids) (items c)).
    + intros name Hc. by rewrite lookup_boolean_index, Hc.
  - intros s. by apply summarize_has_row.
  - intros ts. by apply summarize_nothing.
  - intros choice Hsel Hb.
    assert (b ∈ items ids) as [i Hi]%list_elem_of_lookup_1.
    { apply items_unique_subseteq. rewrite <-items_sort.
      by eapply selectbox_elem_of. }
    exists i, b. split; [done|]. by apply value_eqb_refl.
  - intros choice Hsel. split.
    + by apply selectbox_None, items_listed_nil in Hsel.
    + intros pandas src Hload. unfold main_with. rewrite Hload.
      cbn [mbind result_bind]. unfold listBatchIds, getitem. rewrite Hids.
      cbn [mbind result_bind]. by rewrite Hsel.
Qed.

Lemma batch_restriction_witness :
  (∃ bd, filter_batch loaded (VInt 2) = Ok bd
         ∧ (∀ name c, loaded !! name = Some c →
              ∃ c', bd !! name = Some c'
                    ∧ items c'
                      = (filter (λ r, value_eqb r.1 (VInt 2))
                           (zip (items (Int64 [1; 1; 2; 1; 2]))
                              (items c))).*2)
         ∧ (∀ name, loaded !! name = None → bd !! name = None))
  ∧ (∀ s, summarize loaded (VInt 2) = Ok s →
       ∃ i, in_batch (Int64 [1; 1; 2; 1; 2]) (VInt 2) i)
  ∧ (∀ ts, loaded !! "Timestamp" = Some (Datetime ts) →
       (∀ i, ¬ in_batch (Int64 [1; 1; 2; 1; 2]) (VInt 2) i) →
       summarize loaded (VInt 2)
       = Raise (ValueError "NaTType does not support strftime"))
  ∧ (∀ choice,
       selectbox (sort (unique (Int64 [1; 1; 2; 1; 2]))) choice
       = Some (VInt 2) →
       present (VInt 2) → ∃ i, in_batch (Int64 [1; 1; 2; 1; 2]) (VInt 2) i)
  ∧ (∀ choice,
       selectbox (sort (unique (Int64 [1; 1; 2; 1; 2]))) choice = None →
       items (Int64 [1; 1; 2; 1; 2]) = []
       ∧ ∀ pandas src, load_data src = Ok (Some loaded) →
           main_with pandas src choice = Ok (Stopped "No batches available.")).
Proof.
  apply (batch_restriction loaded (Int64 [1; 1; 2; 1; 2]) (VInt 2)).
  reflexivity.
Defined.

(** C1 fails as stated: for an identifier the table does not hold, the
    restriction is empty, its earliest Timestamp is [NaT], and the run ends
    in the [ValueError] of [NaT.strftime], not in a BatchNotFound result. *)
Lemma summarize_unknown_batch :
  summarize loaded (VStr "does-not-exist")
  = Raise (ValueError "NaTType does not support strftime")
  ∧ summarize loaded (VInt 7)
    = Raise (ValueError "NaTType does not support strftime").
Proof. split; reflexivity. Qed.




(** The example of the specification: readings at 10:00, 10:01 and 10:02
    last two minutes. *)
Example page_of_batch_1 :
  (λ o, match o with
        | Rendered p =>
            Some (batch_card p, date_card p, time_range_card p,
                  duration_card p)
        | Stopped _ => None
        end) <$> main (Present readings) 0
  = Ok (Some (VInt 1, "2024-03-01", "10:00:00 - 10:02:00", "2.00 mins")).
Proof. reflexivity. Qed.

(** ** Loading *)

Lemma mapM_Raise {A B} (f : A → result B) (l : list A) e :
  mapM f l = Raise e → ∃ a, a ∈ l ∧ f a = Raise e.
Proof.
  induction l as [|a l IH]; simpl; [done|].
  destruct (f a) as [b|e'] eqn:Ha; cbn [mbind result_bind].
  - destruct (mapM f l) as [k|e'] eqn:Hl; [done|]. intros [= <-].
    destruct IH as (a' & ? & ?); [done|]. exists a'. split; [by right|done].
  - intros [= <-]. exists a. split; [left|done].
Qed.

Lemma to_timestamp_Raise text e :
  to_timestamp text = Raise e → ∃ msg, e = ValueError msg.
Proof.
  unfold to_timestamp. destruct (parse_nanoseconds text) as [n|];
    [destruct (in_bounds n)|]; [done|..]; intros [= <-]; eauto.
Qed.

Lemma to_datetime_Raise c e :
  to_datetime c = Raise e → ∃ msg, e = ValueError msg.
Proof.
  destruct c as [| |xs|]; simpl; try done.
  destruct (mapM to_timestamp xs) as [ts|e'] eqn:Hxs; [done|].
  intros [= <-]. apply mapM_Raise in Hxs as (text & _ & Htext).
  by eapply to_timestamp_Raise.
Qed.

Lemma load_data_Present (raw : DataFrame) :
  load_data (Present raw)
  = match raw !! "Timestamp" with
    | None => Raise (KeyError "Timestamp")
    | Some ts =>
        match to_datetime ts with
        | Ok ts' => Ok (Some (<["Timestamp" := ts']> raw))
        | Raise e => Raise e
        end
    end.
Proof.
  unfold load_data, getitem. simpl. destruct (raw !! "Timestamp") as [ts|];
    [|done]. simpl.
  destruct (to_datetime ts) as [ts'|e] eqn:Hts; [done|].
  by apply to_datetime_Raise in Hts as [msg ->].
Qed.

(** C4, as the code has it: [load_data] returns its missing-source result
    ([None], which [main] turns into the "Data file not found" message
    before it stops) exactly when the file is absent.  There is no schema
    check: only the Timestamp column is looked up, a file without it makes
    [load_data] raise [KeyError], and any other column may be absent from
    the table that is returned. *)
Theorem load_data_outcomes (src : source) (raw : DataFrame) (choice : nat) :
  (load_data src = Ok None ↔ src = Absent)
  ∧ main Absent choice
    = Ok (Stopped "⚠️ Data file not found at `data/df_stable_only.csv`. Please ensure the file exists in your repository.")
  ∧ load_data Malformed = Raise ParserError
  ∧ load_data (Present raw)
    = match raw !! "Timestamp" with
      | None => Raise (KeyError "Timestamp")
      | Some ts =>
          match to_datetime ts with
          | Ok ts' => Ok (Some (<["Timestamp" := ts']> raw))
          | Raise e => Raise e
          end
      end.
Proof.
  repeat split.
  - destruct src as [| |raw']; [done..|]. rewrite load_data_Present.
    destruct (raw' !! "Timestamp") as [ts|]; [|done].
    by destruct (to_datetime ts).
  - by intros ->.
  - apply load_data_Present.
Qed.

Lemma load_data_outcomes_witness :
  (load_data (Present no_timestamp_column) = Ok None
   ↔ Present no_timestamp_column = Absent)
  ∧ main Absent 0
    = Ok (Stopped "⚠️ Data file not found at `data/df_stable_only.csv`. Please ensure the file exists in your repository.")
  ∧ load_data Malformed = Raise ParserError
  ∧ load_data (Present readings) = Ok (Some loaded).
Proof. exact (load_data_outcomes (Present no_timestamp_column) readings 0). Defined.

(** C4 fails as stated: the file without its batch_id column loads, and
    the run then ends in an uncaught [KeyError]; without its Timestamp
    column [load_data] itself raises. *)
Lemma missing_column_not_reported :
  no_batch_column !! "batch_id" = None
  ∧ (∃ df, load_data (Present no_batch_column) = Ok (Some df))
  ∧ main (Present no_batch_column) 0 = Raise (KeyError "batch_id")
  ∧ load_data (Present no_timestamp_column) = Raise (KeyError "Timestamp").
Proof. repeat split. eexists. reflexivity. Qed.

(** ** The statistics of the valid values *)

Lemma Qmaximum_spec v vs :
  Qmaximum v vs ∈ v :: vs ∧ Forall (λ w, (w <= Qmaximum v vs)%Q) (v :: vs).
Proof.
  unfold Qmaximum. revert v. induction vs as [|w vs IH]; intros v; simpl.
  - split; [left|]. repeat constructor. apply Qle_refl.
  - destruct (decide (v <= w)%Q) as [Hvw|Hvw].
    + destruct (IH w) as [Hin Hall]. split; [by right|].
      apply Forall_cons in Hall as [Hw Hall]. repeat constructor; try done.
      by etrans.
    + destruct (IH v) as [Hin Hall]. split.
      * apply elem_of_cons in Hin as [->|Hin]; [left|by do 2 right].
      * apply Forall_cons in Hall as [Hv Hall]. repeat constructor; try done.
        destruct (Qle_total v w) as [?|Hwv]; [done|]. by etrans.
Qed.

Lemma Qminimum_spec v vs :
  Qminimum v vs ∈ v :: vs ∧ Forall (λ w, (Qminimum v vs <= w)%Q) (v :: vs).
Proof.
  unfold Qminimum. revert v. induction vs as [|w vs IH]; intros v; simpl.
  - split; [left|]. repeat constructor. apply Qle_refl.
  - destruct (decide (w <= v)%Q) as [Hwv|Hwv].
    + destruct (IH w) as [Hin Hall]. split; [by right|].
      apply Forall_cons in Hall as [Hw Hall]. repeat constructor; try done.
      by etrans.
    + destruct (IH v) as [Hin Hall]. split.
      * apply elem_of_cons in Hin as [->|Hin]; [left|by do 2 right].
      * apply Forall_cons in Hall as [Hv Hall]. repeat constructor; try done.
        destruct (Qle_total w v) as [?|Hvw]; [done|]. by etrans.
Qed.

Lemma Qcount_nonzero vs : vs ≠ [] → ¬ (Qcount vs == 0)%Q.
Proof.
  destruct vs as [|v vs]; [done|]. intros _. unfold Qcount, Qeq. simpl. lia.
Qed.

Lemma mean_is_mean vs : vs ≠ [] → is_mean vs (Qsum vs / Qcount vs).
Proof. intros Hvs%Qcount_nonzero. unfold is_mean. by field. Qed.

Lemma median_is_median xs v vs :
  dropna xs = v :: vs → ∃ m, median xs = Fin m ∧ is_median (v :: vs) m.
Proof.
  intros Hvs. unfold median, is_median. rewrite Hvs.
  pose proof (merge_sort_Permutation Qle (v :: vs)) as Hperm.
  pose proof (Sorted_merge_sort Qle (v :: vs)) as Hsorted.
  pose proof (Permutation_length Hperm) as Hlen.
  set (sorted := merge_sort Qle (v :: vs)) in *. rewrite Hlen.
  set (n := length (v :: vs)) in *.
  assert (0 < n)%nat as Hn by (unfold n; simpl; lia).
  destruct sorted as [|w sorted'] eqn:Hs; [simpl in Hlen; lia|]. rewrite <-Hs in *.
  assert (n / 2 < n)%nat as Hmid by (apply Nat.div_lt; lia).
  destruct (Nat.odd n) eqn:Hodd.
  - eexists. split; [reflexivity|]. exists sorted.
    repeat split; try done.
    destruct (nth_lookup_or_length sorted (n / 2) w); [done|lia].
  - eexists. split; [reflexivity|]. exists sorted.
    repeat split; try done. do 2 eexists. repeat split.
    + destruct (nth_lookup_or_length sorted (n / 2 - 1) w); [done|lia].
    + destruct (nth_lookup_or_length sorted (n / 2) w); [done|lia].
Qed.

Lemma var_is_sample_variance xs v :
  var 1 xs = Fin v →
  (2 ≤ length (dropna xs))%nat ∧ is_sample_variance (dropna xs) v.
Proof.
  unfold var, is_sample_variance.
  destruct (Nat.leb_spec (length (dropna xs)) 1) as [|Hlen]; [done|].
  intros [= <-]. split; [lia|].
  rewrite Nat2Z.inj_sub by lia. change (Z.of_nat 1) with 1.
  assert (¬ (inject_Z (Z.of_nat (length (dropna xs)) - 1) == 0)%Q).
  { unfold Qeq. simpl. lia. }
  by field.
Qed.

Lemma var_undefined xs : var 1 xs = NaN → (length (dropna xs) ≤ 1)%nat.
Proof.
  unfold var. by destruct (Nat.leb_spec (length (dropna xs)) 1).
Qed.

Lemma reductions_describe xs : describes (dropna xs) xs.
Proof.
  unfold describes. destruct (dropna xs) as [|v vs] eqn:Hvs.
  - destruct (stats_of_none xs Hvs) as (-> & -> & -> & -> & Hv).
    unfold std. by rewrite Hv.
  - destruct (median_is_median xs v vs Hvs) as (md & Hmd & Hmedian).
    destruct (Qmaximum_spec v vs) as [Hmax_in Hmax].
    destruct (Qminimum_spec v vs) as [Hmin_in Hmin].
    exists (Qsum (v :: vs) / Qcount (v :: vs))%Q, md, (Qmaximum v vs),
      (Qminimum v vs).
    unfold mean, maximum, minimum, std. rewrite Hvs.
    repeat split; try done.
    { by apply mean_is_mean. }
    destruct (var 1 xs) as [|w] eqn:Hw.
    + apply var_undefined in Hw. rewrite Hvs in Hw. simpl in *.
      split; [lia|done].
    + apply var_is_sample_variance in Hw. rewrite Hvs in Hw.
      destruct Hw. done.
Qed.

(** ** The page *)

Lemma mapM_Ok {A B} (f : A → result B) (l : list A) (k : list B) :
  mapM f l = Ok k → Forall2 (λ a b, f a = Ok b) l k.
Proof.
  revert k. induction l as [|a l IH]; intros k; simpl.
  - intros [= <-]. constructor.
  - intros H. inv_bind H as b Hb. inv_bind H as k' Hk'. injection H as <-.
    constructor; auto.
Qed.

Lemma main_with_inv pandas src choice p :
  main_with pandas src choice = Ok (Rendered p) →
  ∃ df ids s,
    load_data src = Ok (Some df) ∧ df !! "batch_id" = Some ids
    ∧ selectbox (sort (unique ids)) choice = Some (batch_card p)
    ∧ summarize df (batch_card p) = Ok s
    ∧ date_card p = date_str s ∧ time_range_card p = time_range_str s
    ∧ duration_card p = format_f 2 (duration s) +:+ " mins"
    ∧ Forall2 (λ '(variable, label) t,
                 scatter (batch_data s) variable label = Ok t)
        charted (traces p)
    ∧ Forall2 (λ '(variable, title) card,
                 stat_card_with pandas (batch_data s) variable title = Ok card)
        summarized (stat_cards p).
Proof.
  unfold main_with. intros H. inv_bind H as [df|] Hdf; [|done].
  inv_bind H as options Hoptions. unfold listBatchIds in Hoptions.
  inv_bind Hoptions as ids Hids. apply getitem_Ok in Hids.
  injection Hoptions as <-.
  destruct (selectbox _ choice) as [b|] eqn:Hb; [|done].
  inv_bind H as s Hs. inv_bind H as ts Hts. inv_bind H as cards Hcards.
  injection H as <-. simpl.
  apply mapM_Ok in Hts, Hcards. exists df, ids, s. repeat split; try done.
  - eapply Forall2_impl; [apply Hts|]. by intros [??] ?.
  - eapply Forall2_impl; [apply Hcards|]. by intros [??] ?.
Qed.

Lemma main_inv src choice p :
  main src choice = Ok (Rendered p) →
  ∃ df ids s,
    load_data src = Ok (Some df) ∧ df !! "batch_id" = Some ids
    ∧ selectbox (sort (unique ids)) choice = Some (batch_card p)
    ∧ summarize df (batch_card p) = Ok s
    ∧ date_card p = date_str s ∧ time_range_card p = time_range_str s
    ∧ duration_card p = format_f 2 (duration s) +:+ " mins"
    ∧ Forall2 (λ '(variable, label) t,
                 scatter (batch_data s) variable label = Ok t)
        charted (traces p)
    ∧ Forall2 (λ '(variable, title) card,
                 stat_card (batch_data s) variable title = Ok card)
        summarized (stat_cards p).
Proof. apply main_with_inv. Qed.

Lemma stat_card_with_inv pandas (bd : DataFrame) variable title card :
  stat_card_with pandas bd variable title = Ok card →
  ∃ series xs,
    bd !! variable = Some series ∧ to_numeric series = Ok xs
    ∧ card = (title, {| Mean := format_f 2 (series_mean pandas xs);
                        Median := format_f 2 (series_median pandas xs);
                        Max := format_f 2 (series_max pandas xs);
                        Min := format_f 2 (series_min pandas xs);
                        Std_Dev := format_f 4 (series_std pandas xs) |}).
Proof.
  unfold stat_card_with, calculate_stats_with. intros H.
  inv_bind H as series Hseries. apply getitem_Ok in Hseries.
  inv_bind H as st Hst. inv_bind Hst as xs Hxs.
  injection Hst as <-. injection H as <-. eauto.
Qed.

Lemma stat_card_inv (bd : DataFrame) variable title card :
  stat_card bd variable title = Ok card →
  ∃ series xs,
    bd !! variable = Some series ∧ to_numeric series = Ok xs
    ∧ card = (title, {| Mean := format_f 2 (mean xs);
                        Median := format_f 2 (median xs);
                        Max := format_f 2 (maximum xs);
                        Min := format_f 2 (minimum xs);
                        Std_Dev := format_f 4 (std xs) |}).
Proof. apply (stat_card_with_inv nanops). Qed.

Lemma mapM_is_Ok {A B} (f : A → result B) (l : list A) :
  Forall (λ a, ∃ b, f a = Ok b) l → ∃ k, mapM f l = Ok k.
Proof.
  induction 1 as [|a l [b Hb] _ [k Hk]]; simpl; [by eexists|].
  rewrite Hb. cbn [mbind result_bind]. rewrite Hk. by eexists.
Qed.

(** Plain timestamps load, and stay within 2^62 nanoseconds of 1970. *)
Lemma plain_timestamps_load stamps :
  Forall plain_timestamp stamps →
  ∃ ts, to_datetime (Object stamps) = Ok (Datetime ts)
        ∧ length ts = length stamps
        ∧ Forall (λ t, ∃ n, t = Ns n ∧ - 2 ^ 62 < n < 2 ^ 62) ts.
Proof.
  induction 1 as [|text stamps (n & Hn & Hrange) _ (ts & Hts & Hlen & Hall)].
  { exists []. by repeat split. }
  exists (Ns n :: ts). simpl in Hts.
  destruct (mapM to_timestamp stamps) as [ts'|] eqn:Hm; [|done].
  injection Hts as ->. split_and!; [|simpl; congruence|constructor; eauto].
  cbn [to_datetime].
  change (mapM to_timestamp (text :: stamps))
    with (y ← to_timestamp text; k ← mapM to_timestamp stamps; mret (y :: k)).
  assert (to_timestamp text = Ok (Ns n)) as ->.
  { unfold to_timestamp. rewrite Hn.
    assert (in_bounds n = true) as -> by (apply in_bounds_spec; lia). done. }
  by rewrite Hm.
Qed.

Lemma identifiers_present c v : identifiers c → v ∈ items c → present v.
Proof.
  destruct c; simpl; try done; intros _ (? & -> & _)%list_elem_of_fmap; done.
Qed.

Lemma numeric_select mask c : numeric c → numeric (select mask c).
Proof. by destruct c. Qed.

Lemma calculate_stats_numeric pandas c :
  numeric c → ∃ st, calculate_stats_with pandas c = Ok st.
Proof. destruct c; try done; intros _; by eexists. Qed.

Lemma to_numeric_select mask series xs :
  to_numeric (select mask series) = Ok xs →
  ∃ xs0, to_numeric series = Ok xs0 ∧ xs = keep mask xs0.
Proof.
  destruct series as [ys|ys|ys|ys]; simpl; try done; intros [= <-].
  - by exists ys.
  - eexists. split; [done|]. symmetry. apply keep_fmap.
Qed.

(** What a well-formed file gives after loading and selecting. *)
Lemma well_formed_selection (raw : DataFrame) (choice : nat) stamps ids :
  raw !! "Timestamp" = Some (Object stamps) →
  Forall plain_timestamp stamps →
  raw !! "batch_id" = Some ids →
  identifiers ids →
  length stamps = length (items ids) →
  items ids ≠ [] →
  ∃ ts b s,
    let df := <["Timestamp" := Datetime ts]> raw in
    load_data (Present raw) = Ok (Some df)
    ∧ df !! "batch_id" = Some ids
    ∧ selectbox (sort (unique ids)) choice = Some b
    ∧ b ∈ items ids
    ∧ summarize df b = Ok s
    ∧ batch_data s = boolean_index df (eq_mask ids b).
Proof.
  intros Hst Hplain Hids Hkind Hlen Hne.
  destruct (plain_timestamps_load _ Hplain) as (ts & Hconv & Hlen' & Hrange).
  exists ts. set (df := <["Timestamp" := Datetime ts]> raw).
  assert (load_data (Present raw) = Ok (Some df)) as Hload.
  { by rewrite load_data_Present, Hst, Hconv. }
  assert (df !! "batch_id" = Some ids) as Hdf_ids.
  { unfold df. by rewrite lookup_insert_ne. }
  assert (df !! "Timestamp" = Some (Datetime ts)) as Hdf_ts.
  { unfold df. by rewrite lookup_insert_eq. }
  destruct (selectbox (sort (unique ids)) choice) as [b|] eqn:Hsel.
  2:{ apply selectbox_None, items_listed_nil in Hsel. done. }
  assert (b ∈ items ids) as Hb.
  { apply items_unique_subseteq. rewrite <-items_sort.
    by eapply selectbox_elem_of. }
  rewrite Forall_forall in Hrange.
  destruct (summarize_present df ids ts b) as (s & lo & hi & Hs & Hbd & _);
    [done|done|congruence| |done|by eapply identifiers_present| |].
  - apply Forall_forall. intros t (n & -> & _)%Hrange. done.
  - intros n m Hn Hm.
    apply (sublist_subseteq _ _ (keep_sublist _ _)) in Hn, Hm.
    apply Hrange in Hn as (n' & [= <-] & ?), Hm as (m' & [= <-] & ?). lia.
  - by exists b, s.
Qed.

(** On a well-formed file the script runs to the rendered page, whichever
    batch the operator picks and whatever the reductions return. *)
Lemma main_with_renders pandas (raw : DataFrame) (choice : nat) :
  well_formed raw → ∃ p, main_with pandas (Present raw) choice = Ok (Rendered p).
Proof.
  intros (stamps & ids & Hst & Hplain & Hids & Hkind & Hlen & Hne & Hvars).
  destruct (well_formed_selection raw choice stamps ids)
    as (ts & b & s & Hload & Hdf_ids & Hsel & Hb & Hs & Hbd); try done.
  set (df := <["Timestamp" := Datetime ts]> raw) in *.
  assert (∀ variable c, raw !! variable = Some c → numeric c →
            batch_data s !! variable = Some (select (eq_mask ids b) c))
    as Hcol.
  { intros variable c Hc Hnum. rewrite Hbd, lookup_boolean_index. unfold df.
    rewrite lookup_insert_ne; [by rewrite Hc|].
    intros <-. rewrite Hst in Hc. by injection Hc as <-. }
  assert (batch_data s !! "Timestamp"
          = Some (select (eq_mask ids b) (Datetime ts))) as Hx.
  { unfold df in Hbd. by rewrite Hbd, lookup_boolean_index, lookup_insert_eq. }
  destruct (mapM_is_Ok
              (λ '(variable, label), scatter (batch_data s) variable label)
              charted) as [traces Htraces].
  { apply Forall_forall. intros [variable label] Hin.
    rewrite Forall_forall in Hvars.
    destruct (Hvars variable) as (c & Hc & Hnum).
    { apply list_elem_of_fmap. by exists (variable, label). }
    unfold scatter, getitem. rewrite Hx, (Hcol _ _ Hc Hnum). by eexists. }
  destruct (mapM_is_Ok
              (λ '(variable, title),
                 stat_card_with pandas (batch_data s) variable title)
              summarized) as [cards Hcards].
  { unfold charted in Hvars. simpl in Hvars. rewrite !Forall_cons in Hvars.
    destruct Hvars as (_ & H1 & _ & H2 & H3 & H4 & H5 & _).
    repeat constructor; cbv beta iota.
    all: match goal with
         | H : ∃ c, _ !! ?v = Some c ∧ numeric c
           |- ∃ card, stat_card_with _ _ ?v _ = Ok card =>
             destruct H as (c & Hc & Hnum);
             destruct (calculate_stats_numeric pandas
                         (select (eq_mask ids b) c))
               as [st Hst']; [by apply numeric_select|];
             unfold stat_card_with, getitem; rewrite (Hcol _ _ Hc Hnum);
             cbn [mbind result_bind]; rewrite Hst'; by eexists
         end. }
  unfold main_with. rewrite Hload. cbn [mbind result_bind].
  unfold listBatchIds, getitem. rewrite Hdf_ids. cbn [mbind result_bind].
  rewrite Hsel, Hs. cbn [mbind result_bind].
  rewrite Htraces. cbn [mbind result_bind]. rewrite Hcards.
  cbn [mbind result_bind]. by eexists.
Qed.

Lemma main_renders (raw : DataFrame) (choice : nat) :
  well_formed raw → ∃ p, main (Present raw) choice = Ok (Rendered p).
Proof. apply main_with_renders. Qed.

Lemma load_data_inv raw df :
  load_data (Present raw) = Ok (Some df) →
  ∃ c c', raw !! "Timestamp" = Some c ∧ to_datetime c = Ok c'
          ∧ df = <["Timestamp" := c']> raw.
Proof.
  rewrite load_data_Present. destruct (raw !! "Timestamp") as [c|]; [|done].
  destruct (to_datetime c) as [c'|] eqn:Hc; [|done]. intros [= <-]. eauto.
Qed.


(** The sample table is a well-formed file. *)
Lemma readings_well_formed : well_formed readings.
Proof.
  do 2 eexists. split; [reflexivity|]. split.
  { repeat (apply Forall_cons_2;
      [eexists; split; [vm_compute; reflexivity|split; reflexivity]|]).
    apply Forall_nil_2. }
  split; [reflexivity|]. repeat split; [done|].
  repeat constructor; eexists; (split; [reflexivity|exact I]).
Qed.

(** ** The exact reductions skip missing values *)

Lemma dropna_non_missing xs : dropna xs = non_missing xs.
Proof.
  unfold dropna, non_missing. induction xs as [|[|v] xs IH]; [done|..].
  - exact IH.
  - cbn. by rewrite <-IH.
Qed.


Lemma nanops_skips_missing : skips_missing nanops.
Proof.
  intros xs. cbv zeta. rewrite <-dropna_non_missing.
  pose proof (reductions_describe xs) as H. unfold describes, std in H. simpl.
  destruct (dropna xs) as [|v vs] eqn:Hvs.
  - destruct H as (-> & -> & -> & -> & [= ->]). split_and!; [done|done|].
    simpl. split; [done|lia].
  - destruct H as (m & md & mx & mn & -> & _ & -> & _ & -> & ? & -> & ? & Hstd).
    split_and!; [done|intros _; by exists m, md, mx, mn|].
    destruct (var 1 xs) as [|w] eqn:Hw.
    + destruct Hstd as [Hlen _]. simpl in *. split; [done|lia].
    + destruct Hstd as (Hlen & _). split; [done|intros _].
      apply var_nonneg in Hw. unfold Qle. simpl. lia.
Qed.

(** ** The statistics cards *)



(** The cards of batch 2 of the sample table: its two readings of the
    outlet pressure are both missing. *)
Example stat_cards_of_batch_2 :
  (λ o, match o with
        | Rendered p => stat_cards p
        | Stopped _ => []
        end) <$> main (Present readings) 1
  = Ok [("Process Temp (°C)",
         {| Mean := "65.00"; Median := "65.00"; Max := "65.00";
            Min := "65.00"; Std_Dev := "nan" |});
        ("Outlet Pressure P2 (Bar)", undefined_stats);
        ("Inlet Pressure P1 (Bar)",
         {| Mean := "4.00"; Median := "4.00"; Max := "4.00"; Min := "4.00";
            Std_Dev := "0.0000" |});
        ("Steam Flow (kg/hr)",
         {| Mean := "90.50"; Median := "90.50"; Max := "91.00";
            Min := "90.00"; Std_Dev := "0.7071" |});
        ("Valve Opening (%)",
         {| Mean := "20.00"; Median := "20.00"; Max := "20.00";
            Min := "20.00"; Std_Dev := "0.0000" |})].
Proof. reflexivity. Qed.


(** * The dashboard beyond the specification

    Properties of [load_data], [calculate_stats] and [main] read off the
    code. *)

(** ** A batch and its window *)

(** X1: whenever [summarize] returns, the window is well ordered: the
    start is not after the end, and the duration is not negative. *)
Theorem window_is_ordered (df : DataFrame) (b : value) (s : summary) :
  summarize df b = Ok s →
  ∃ lo hi d,
    start_time s = Ns lo ∧ end_time s = Ns hi ∧ lo ≤ hi
    ∧ duration s = Fin d ∧ (0 <= d)%Q.
Proof.
  intros (ts & lo & hi & _ & _ & _ & Hstart & Hend & Hle & _ & Hdur)%summarize_span.
  exists lo, hi. eexists. split_and!; [done|done|lia|done|].
  unfold Qle, Qdiv, Qmult, Qinv. simpl. lia.
Qed.

Lemma window_is_ordered_witness :
  ∃ s, summarize loaded (VInt 1) = Ok s ∧
  ∃ lo hi d,
    start_time s = Ns lo ∧ end_time s = Ns hi ∧ lo ≤ hi
    ∧ duration s = Fin d ∧ (0 <= d)%Q.
Proof.
  eexists. split; [reflexivity|].
  apply (window_is_ordered loaded (VInt 1)). reflexivity.
Defined.

Lemma keep_nil_r {A} mask : keep mask (@nil A) = [].
Proof. by destruct mask as [|[] ?]. Qed.

Lemma keep_again {A B} (f : A → bool) (ks : list A) (xs : list B) :
  keep (f <$> keep (f <$> ks) ks) (keep (f <$> ks) xs) = keep (f <$> ks) xs.
Proof.
  revert xs. induction ks as [|k ks IH]; intros [|x xs]; simpl; try done.
  - apply keep_nil_r.
  - destruct (f k) eqn:Hk; simpl; [|apply IH]. by rewrite Hk, IH.
Qed.

Lemma select_again b ids c :
  select (eq_mask (select (eq_mask ids b) ids) b) (select (eq_mask ids b) c)
  = select (eq_mask ids b) c.
Proof.
  unfold eq_mask. rewrite items_select.
  pose proof (λ B, keep_again (B := B) (λ cell, value_eqb cell b) (items ids))
    as H.
  destruct c; simpl; f_equal; apply H.
Qed.

(** X2: selecting a batch is idempotent.  The rows of a batch, filtered
    again by the same identifier, are the same rows, and their summary is
    the summary of the batch. *)
Theorem filter_batch_idempotent (df bd : DataFrame) (b : value) :
  filter_batch df b = Ok bd →
  filter_batch bd b = Ok bd ∧ summarize bd b = summarize df b.
Proof.
  intros Hbd. assert (filter_batch bd b = Ok bd) as Hagain.
  { apply filter_batch_inv in Hbd as (ids & Hids & ->).
    rewrite (filter_batch_Ok _ (select (eq_mask ids b) ids)).
    2:{ by rewrite lookup_boolean_index, Hids. }
    f_equal. apply map_eq. intros k. rewrite !lookup_boolean_index.
    destruct (df !! k) as [c|]; simpl; [|done]. by rewrite select_again. }
  split; [done|]. unfold summarize. by rewrite Hbd, Hagain.
Qed.

Lemma filter_batch_idempotent_witness :
  let bd := boolean_index loaded (eq_mask (Int64 [1; 1; 2; 1; 2]) (VInt 1)) in
  filter_batch bd (VInt 1) = Ok bd
  ∧ summarize bd (VInt 1) = summarize loaded (VInt 1).
Proof. apply (filter_batch_idempotent loaded). reflexivity. Defined.

(** ** Batches partition the table *)

Lemma value_eqb_identifiers c v w :
  identifiers c → v ∈ items c → w ∈ items c → value_eqb v w = true → v = w.
Proof.
  destruct c as [|xs|xs|]; simpl; try done;
    intros _ (a & -> & _)%list_elem_of_fmap (a' & -> & _)%list_elem_of_fmap;
    simpl.
  - by intros ->%Z.eqb_eq.
  - by intros ->%String.eqb_eq.
Qed.

Lemma elem_of_keep_fmap {A} (f : A → bool) (ks : list A) x :
  x ∈ keep (f <$> ks) ks → x ∈ ks ∧ f x = true.
Proof.
  induction ks as [|k ks IH]; simpl; [by intros ?%elem_of_nil|].
  destruct (f k) eqn:Hk.
  - intros [->|[??]%IH]%elem_of_cons; split; auto; [left|by right].
  - intros [??]%IH. split; [by right|done].
Qed.

Lemma keep_all_false {A B} (g : A → bool) (ks : list A) (xs : list B) :
  Forall (λ k, g k = false) ks → keep (g <$> ks) xs = [].
Proof.
  intros H. revert xs. induction H as [|k ks Hk _ IH]; intros [|x xs]; simpl;
    try done.
  by rewrite Hk.
Qed.

(** X3: two batches share no row.  For two different identifiers of the
    table, the rows of the one hold no row of the other: filtering them by
    the other identifier leaves every column empty. *)
Theorem batches_are_disjoint (df bd : DataFrame) (ids : column) (b b' : value) :
  df !! "batch_id" = Some ids →
  identifiers ids →
  b ∈ items ids → b' ∈ items ids → b ≠ b' →
  filter_batch df b = Ok bd →
  ∃ bd', filter_batch bd b' = Ok bd'
         ∧ ∀ k c, bd' !! k = Some c → items c = [].
Proof.
  intros Hids Hkind Hb Hb' Hne Hbd.
  rewrite (filter_batch_Ok df ids b Hids) in Hbd. injection Hbd as <-.
  eexists. split.
  { apply (filter_batch_Ok _ (select (eq_mask ids b) ids)).
    by rewrite lookup_boolean_index, Hids. }
  intros k c. rewrite !lookup_boolean_index.
  destruct (df !! k) as [c0|]; simpl; [|done]. intros [= <-].
  rewrite !items_select. unfold eq_mask at 1. rewrite items_select.
  apply keep_all_false, Forall_forall. intros cell [Hcell Heq]%elem_of_keep_fmap.
  apply (value_eqb_identifiers ids) in Heq as ->; [|done..].
  destruct (value_eqb b b') eqn:Hbb; [|done].
  by apply (value_eqb_identifiers ids) in Hbb.
Qed.

Lemma batches_are_disjoint_witness :
  let bd := boolean_index loaded (eq_mask (Int64 [1; 1; 2; 1; 2]) (VInt 1)) in
  ∃ bd', filter_batch bd (VInt 2) = Ok bd'
         ∧ ∀ k c, bd' !! k = Some c → items c = [].
Proof.
  apply (batches_are_disjoint loaded _ (Int64 [1; 1; 2; 1; 2]) (VInt 1)).
  - reflexivity.
  - exact I.
  - simpl. left.
  - simpl. do 2 right. left.
  - discriminate.
  - reflexivity.
Defined.

(** X4: every row belongs to exactly one listed batch: its identifier is
    in the list of batches, and no other listed identifier selects it. *)
Theorem every_row_in_one_batch (df : DataFrame) (ids : column) :
  df !! "batch_id" = Some ids →
  identifiers ids →
  ∃ out, listBatchIds df = Ok out
         ∧ ∀ cell, cell ∈ items ids →
             ∃ b, b ∈ items out ∧ value_eqb cell b = true
                  ∧ ∀ b', b' ∈ items out → value_eqb cell b' = true → b' = b.
Proof.
  intros Hids Hkind. exists (sort (unique ids)). split.
  { unfold listBatchIds. apply getitem_Ok in Hids. by rewrite Hids. }
  intros cell Hcell.
  destruct (items_unique_covers ids cell Hcell) as (w & Hw & Hsame).
  apply (value_same_identifiers ids) in Hsame as <-; [|done..].
  exists cell. split_and!.
  - by rewrite items_sort.
  - apply value_eqb_refl. by eapply identifiers_present.
  - intros b' Hb' Heq. symmetry. apply (value_eqb_identifiers ids); try done.
    apply items_unique_subseteq. by rewrite <-items_sort.
Qed.

Lemma every_row_in_one_batch_witness :
  ∃ out, listBatchIds loaded = Ok out
         ∧ ∀ cell, cell ∈ items (Int64 [1; 1; 2; 1; 2]) →
             ∃ b, b ∈ items out ∧ value_eqb cell b = true
                  ∧ ∀ b', b' ∈ items out → value_eqb cell b' = true → b' = b.
Proof.
  apply (every_row_in_one_batch loaded (Int64 [1; 1; 2; 1; 2]));
    [reflexivity|exact I].
Defined.

Lemma value_le_antisym_identifiers c c' v w :
  identifiers c → v ∈ items c → w ∈ items c' →
  value_le v w → value_le w v → v = w.
Proof.
  destruct c as [|xs|xs|]; simpl; try done;
    intros _ (a & -> & _)%list_elem_of_fmap; destruct w; simpl; try done.
  - intros _ ??. f_equal. lia.
  - intros _ ??. f_equal. by apply (anti_symm String.le).
Qed.

Lemma items_listed_identifiers c v :
  identifiers c → v ∈ items (sort (unique c)) ↔ v ∈ items c.
Proof.
  intros Hkind. rewrite items_sort. split; [apply items_unique_subseteq|].
  intros Hv. destruct (items_unique_covers c v Hv) as (w & Hw & Hsame).
  by apply (value_same_identifiers c) in Hsame as <-.
Qed.

(** X5: the list of batches depends only on which identifiers occur in
    the table, not on the order of the rows or on how often an identifier
    occurs. *)
Theorem batch_list_ignores_row_order (df df' : DataFrame) (ids ids' : column) :
  df !! "batch_id" = Some ids →
  df' !! "batch_id" = Some ids' →
  identifiers ids → identifiers ids' →
  (∀ v, v ∈ items ids ↔ v ∈ items ids') →
  ∃ out out', listBatchIds df = Ok out ∧ listBatchIds df' = Ok out'
              ∧ items out = items out'.
Proof.
  intros Hids Hids' Hkind Hkind' Hsame.
  exists (sort (unique ids)), (sort (unique ids')). split_and!.
  - unfold listBatchIds. apply getitem_Ok in Hids. by rewrite Hids.
  - unfold listBatchIds. apply getitem_Ok in Hids'. by rewrite Hids'.
  - apply (Sorted_unique_strong value_le); auto using Sorted_items_sort.
    + intros v w Hv Hw. apply (items_listed_identifiers ids v Hkind) in Hv.
      apply (value_le_antisym_identifiers ids ids'); try done.
      apply items_unique_subseteq. by rewrite <-items_sort.
    + apply NoDup_Permutation.
      * rewrite items_sort. apply NoDup_items_unique.
      * rewrite items_sort. apply NoDup_items_unique.
      * intros v. rewrite !items_listed_identifiers by done. apply Hsame.
Qed.

Lemma batch_list_ignores_row_order_witness :
  ∃ out out',
    listBatchIds loaded = Ok out
    ∧ listBatchIds {["batch_id" := Int64 [2; 1]]} = Ok out'
    ∧ items out = items out'.
Proof.
  apply (batch_list_ignores_row_order loaded {["batch_id" := Int64 [2; 1]]}
           (Int64 [1; 1; 2; 1; 2]) (Int64 [2; 1]));
    [reflexivity|reflexivity|exact I|exact I|].
  intros v. simpl. rewrite !elem_of_cons, !elem_of_nil. tauto.
Defined.

(** ** Tables stay rectangular *)

Lemma to_datetime_length c c' :
  to_datetime c = Ok c' → length (items c') = length (items c).
Proof.
  destruct c as [xs|xs|xs|xs]; simpl.
  - intros [= <-]. simpl. by rewrite !length_map.
  - intros [= <-]. simpl. by rewrite !length_map.
  - destruct (mapM to_timestamp xs) as [ts|] eqn:Hts; [|done].
    intros [= <-]. simpl. rewrite !length_map. symmetry.
    apply mapM_Ok in Hts. by eapply Forall2_length.
  - by intros [= <-].
Qed.

Lemma seriesFor_inv (df : DataFrame) b variable pts :
  seriesFor df b variable = Ok pts →
  ∃ ids ts ys,
    df !! "batch_id" = Some ids ∧ df !! "Timestamp" = Some ts
    ∧ df !! variable = Some ys
    ∧ pts = keep (eq_mask ids b) (zip (items ts) (items ys)).
Proof.
  unfold seriesFor, scatter. intros H.
  inv_bind H as bd Hbd. apply filter_batch_inv in Hbd as (ids & Hids & ->).
  inv_bind H as t Ht. inv_bind Ht as xcol Hx. inv_bind Ht as ycol Hy.
  apply getitem_Ok in Hx, Hy. rewrite lookup_boolean_index in Hx, Hy.
  destruct (df !! "Timestamp") as [ts|] eqn:Hts; [|done].
  destruct (df !! variable) as [ys|] eqn:Hys; [|done].
  simpl in *. simplify_eq. exists ids, ts, ys. repeat split; [done|].
  unfold points. simpl. by rewrite !items_select, keep_zip_with.
Qed.

(** X6: a table whose columns all have [n] rows keeps that shape.  After
    loading, every column still has [n] rows; the data of a batch have, in
    every column, as many rows as the batch has identifiers, at most [n];
    and every charted series of the batch has exactly that many points. *)
Theorem frames_stay_rectangular (raw df bd : DataFrame) (ids : column)
    (b : value) (n : nat) :
  rectangular raw n →
  load_data (Present raw) = Ok (Some df) →
  df !! "batch_id" = Some ids →
  filter_batch df b = Ok bd →
  rectangular df n
  ∧ rectangular bd (batch_size ids b)
  ∧ (batch_size ids b ≤ n)%nat
  ∧ ∀ variable pts,
      seriesFor df b variable = Ok pts → length pts = batch_size ids b.
Proof.
  intros Hraw (c & c' & Hc & Hconv & ->)%load_data_inv Hids Hbd.
  set (df := <["Timestamp" := c']> raw) in *.
  assert (rectangular df n) as Hdf.
  { intros k col. unfold df. rewrite lookup_insert. case_decide.
    - intros [= <-]. rewrite (to_datetime_length c c' Hconv). eauto.
    - apply Hraw. }
  pose proof (Hdf _ _ Hids) as Hn.
  rewrite (filter_batch_Ok df ids b Hids) in Hbd. injection Hbd as <-.
  split_and!; [done|..].
  - intros k col. rewrite lookup_boolean_index.
    destruct (df !! k) as [col0|] eqn:Hk; simpl; [|done]. intros [= <-].
    rewrite items_select. apply (length_keep (λ cell, value_eqb cell b)).
    rewrite Hn. eauto.
  - unfold batch_size. rewrite <-Hn. apply length_filter.
  - intros variable pts (ids' & ts & ys & Hids' & Hts & Hys & ->)%seriesFor_inv.
    assert (ids' = ids) as -> by congruence.
    apply (length_keep (λ cell, value_eqb cell b)).
    rewrite length_zip_with, (Hdf _ _ Hts), (Hdf _ _ Hys), Hn. lia.
Qed.

Lemma frames_stay_rectangular_witness :
  let bd := boolean_index loaded (eq_mask (Int64 [1; 1; 2; 1; 2]) (VInt 1)) in
  rectangular loaded 5
  ∧ rectangular bd (batch_size (Int64 [1; 1; 2; 1; 2]) (VInt 1))
  ∧ Nat.le (batch_size (Int64 [1; 1; 2; 1; 2]) (VInt 1)) 5
  ∧ ∀ variable pts,
      seriesFor loaded (VInt 1) variable = Ok pts →
      length pts = batch_size (Int64 [1; 1; 2; 1; 2]) (VInt 1).
Proof.
  apply (frames_stay_rectangular readings loaded); try reflexivity.
  intros k c. unfold readings. simpl.
  rewrite !lookup_insert. repeat case_decide; try (intros [= <-]; reflexivity).
Defined.

(** ** Runs of the script *)

Lemma main_after_selection src choice (df : DataFrame) ids b s :
  load_data src = Ok (Some df) →
  df !! "batch_id" = Some ids →
  selectbox (sort (unique ids)) choice = Some b →
  summarize df b = Ok s →
  main src choice
  = (traces ← mapM (λ '(variable, name),
                      scatter (batch_data s) variable name) charted;
     cards ← mapM (λ '(variable, title),
                     stat_card (batch_data s) variable title) summarized;
     Ok (Rendered
           {| batch_card := b;
              date_card := date_str s;
              time_range_card := time_range_str s;
              duration_card := format_f 2 (duration s) +:+ " mins";
              traces := traces;
              stat_cards := cards |})).
Proof.
  intros Hload Hids Hsel Hs. unfold main, main_with. rewrite Hload.
  cbn [mbind result_bind]. unfold listBatchIds, getitem. rewrite Hids.
  cbn [mbind result_bind]. by rewrite Hsel, Hs.
Qed.

Lemma charted_names v :
  v ∈ charted.*1 → v ≠ "Timestamp" ∧ v ≠ "batch_id".
Proof.
  revert v. apply Forall_forall. repeat constructor; discriminate.
Qed.

Lemma mapM_Raise_key {B} (f : string * string → result B)
    (l : list (string * string)) v e :
  v ∈ l.*1 →
  (∀ x label, (x, label) ∈ l → x ≠ v → ∃ b, f (x, label) = Ok b) →
  (∀ label, f (v, label) = Raise e) →
  mapM f l = Raise e.
Proof.
  intros Hv Hother Hkey. induction l as [|[x label] l IH]; simpl in *.
  - by apply elem_of_nil in Hv.
  - destruct (decide (x = v)) as [->|Hne].
    + by rewrite Hkey.
    + destruct (Hother x label) as [b Hb]; [left|done|]. rewrite Hb.
      cbn [mbind result_bind]. rewrite IH; [done|..].
      * apply elem_of_cons in Hv as [?|?]; [congruence|done].
      * intros x' label' ??. apply Hother; [by right|done].
Qed.

(** X7: a file that lacks one of the nine columns the script reads ends
    the run in a [KeyError] that names the missing column, whichever batch
    is picked. *)
Theorem missing_column_raises (raw : DataFrame) (choice : nat) (k : string) :
  well_formed raw →
  k ∈ "Timestamp" :: "batch_id" :: charted.*1 →
  main (Present (delete k raw)) choice = Raise (KeyError k).
Proof.
  intros (stamps & ids & Hst & Hplain & Hids & Hkind & Hlen & Hne & Hvars).
  intros [->|[->|Hk]%elem_of_cons]%elem_of_cons.
  - unfold main, main_with. by rewrite load_data_Present, lookup_delete_eq.
  - destruct (plain_timestamps_load _ Hplain) as (ts & Hconv & _).
    unfold main, main_with.
    rewrite load_data_Present, lookup_delete_ne, Hst, Hconv by done.
    cbn [mbind result_bind]. unfold listBatchIds, getitem.
    by rewrite lookup_insert_ne, lookup_delete_eq.
  - destruct (charted_names k Hk) as [Hk1 Hk2].
    destruct (well_formed_selection (delete k raw) choice stamps ids)
      as (ts & b & s & Hload & Hdf_ids & Hsel & Hb & Hs & Hbd); try done.
    { by rewrite lookup_delete_ne. }
    { by rewrite lookup_delete_ne. }
    rewrite (main_after_selection _ _ _ _ _ _ Hload Hdf_ids Hsel Hs).
    rewrite (mapM_Raise_key _ charted k (KeyError k)); [done|done|..].
    + intros x label Hx Hne'.
      assert (x ∈ charted.*1) as Hx'.
      { apply list_elem_of_fmap. by exists (x, label). }
      destruct (charted_names x Hx') as [Hx1 Hx2].
      rewrite Forall_forall in Hvars. destruct (Hvars x Hx') as (c & Hc & _).
      unfold scatter, getitem. rewrite Hbd, !lookup_boolean_index.
      rewrite lookup_insert_eq, lookup_insert_ne, lookup_delete_ne, Hc by done.
      by eexists.
    + intros label. unfold scatter, getitem.
      rewrite Hbd, !lookup_boolean_index.
      by rewrite lookup_insert_eq, lookup_insert_ne, lookup_delete_eq.
Qed.

Lemma missing_column_raises_witness :
  main (Present (delete "Steam Flow Rate" readings)) 1
  = Raise (KeyError "Steam Flow Rate").
Proof.
  apply (missing_column_raises readings 1 "Steam Flow Rate").
  - exact readings_well_formed.
  - simpl. rewrite !elem_of_cons. tauto.
Defined.

Lemma Forall2_fmap_eq {A B C} (g : B → C) (h : A → C) (l : list A)
    (k : list B) :
  Forall2 (λ a b, g b = h a) l k → g <$> k = h <$> l.
Proof. induction 1 as [|a b l k Hab _ IH]; csimpl; [done|]. by rewrite Hab, IH. Qed.

(** X8: on a well-formed file the script runs to the rendered page,
    whichever option the operator picks: the page is that of an identifier
    of the table, with the seven traces under their legend names and the
    five statistics cards under their titles. *)
Theorem page_of_well_formed_file (raw : DataFrame) (choice : nat) :
  well_formed raw →
  ∃ p ids,
    main (Present raw) choice = Ok (Rendered p)
    ∧ raw !! "batch_id" = Some ids
    ∧ batch_card p ∈ items ids
    ∧ name <$> traces p
      = ["Process Temp SP"; "Process Temp"; "Pressure SP"; "Inlet P1";
         "Outlet P2"; "Flow Rate"; "Valve %"]
    ∧ (stat_cards p).*1
      = ["Process Temp (°C)"; "Outlet Pressure P2 (Bar)";
         "Inlet Pressure P1 (Bar)"; "Steam Flow (kg/hr)";
         "Valve Opening (%)"].
Proof.
  intros Hwf. destruct (main_renders raw choice Hwf) as [p Hp].
  destruct Hwf as (stamps & ids & Hst & _ & Hids & _).
  pose proof Hp as Hinv.
  apply main_inv in Hinv
    as (df & ids' & s & Hdf & Hids' & Hsel & Hs & _ & _ & _ & Htr & Hcards).
  apply load_data_inv in Hdf as (c & c' & Hc & _ & ->).
  rewrite lookup_insert_ne in Hids' by done.
  assert (ids' = ids) as -> by congruence.
  exists p, ids. split_and!; [done|done|..].
  - apply items_unique_subseteq. rewrite <-items_sort.
    by eapply selectbox_elem_of.
  - change (name <$> traces p = charted.*2). apply Forall2_fmap_eq.
    eapply Forall2_impl; [apply Htr|]. intros [variable label] t Ht.
    unfold scatter in Ht. inv_bind Ht as xcol Hx. inv_bind Ht as ycol Hy.
    by injection Ht as <-.
  - change ((stat_cards p).*1 = summarized.*2). apply Forall2_fmap_eq.
    eapply Forall2_impl; [apply Hcards|]. intros [variable title] card Hcard.
    unfold stat_card, stat_card_with in Hcard. inv_bind Hcard as series Hseries.
    inv_bind Hcard as st Hst'. by injection Hcard as <-.
Qed.

Lemma page_of_well_formed_file_witness :
  ∃ p ids,
    main (Present readings) 1 = Ok (Rendered p)
    ∧ readings !! "batch_id" = Some ids
    ∧ batch_card p ∈ items ids
    ∧ name <$> traces p
      = ["Process Temp SP"; "Process Temp"; "Pressure SP"; "Inlet P1";
         "Outlet P2"; "Flow Rate"; "Valve %"]
    ∧ (stat_cards p).*1
      = ["Process Temp (°C)"; "Outlet Pressure P2 (Bar)";
         "Inlet Pressure P1 (Bar)"; "Steam Flow (kg/hr)";
         "Valve Opening (%)"].
Proof.
  apply (page_of_well_formed_file readings 1). exact readings_well_formed.
Defined.

(** X10: the two messages the script stops with.  It stops instead of
    rendering in two cases only: the file is absent, and the message is the
    one about the missing data file; or the loaded table has no row, and
    the message is "No batches available.". *)
Theorem main_stops (src : source) (choice : nat) (message : string) :
  main src choice = Ok (Stopped message)
  ↔ (src = Absent
     ∧ message = "⚠️ Data file not found at `data/df_stable_only.csv`. Please ensure the file exists in your repository.")
    ∨ (message = "No batches available."
       ∧ ∃ df ids, load_data src = Ok (Some df)
                   ∧ df !! "batch_id" = Some ids ∧ items ids = []).
Proof.
  split.
  - unfold main, main_with. intros H. inv_bind H as [df|] Hload.
    + right. inv_bind H as options Hlist. unfold listBatchIds in Hlist.
      inv_bind Hlist as ids Hids. apply getitem_Ok in Hids.
      injection Hlist as <-.
      destruct (selectbox _ choice) as [b|] eqn:Hsel.
      * inv_bind H as s Hs. inv_bind H as trs Htrs. inv_bind H as cards Hcards.
        done.
      * injection H as <-. split; [done|]. exists df, ids.
        split_and!; [done..|]. by eapply items_listed_nil, selectbox_None.
    + left. injection H as <-. split; [|done].
      destruct src as [| |raw]; [done..|]. rewrite load_data_Present in Hload.
      destruct (raw !! "Timestamp") as [c|]; [|done].
      by destruct (to_datetime c).
  - intros [[-> ->]|(-> & df & ids & Hload & Hids & Hnil)]; [done|].
    unfold main, main_with. rewrite Hload. cbn [mbind result_bind].
    unfold listBatchIds, getitem. rewrite Hids. cbn [mbind result_bind].
    assert (selectbox (sort (unique ids)) choice = None) as ->; [|done].
    apply selectbox_None. apply Permutation_nil_r. rewrite items_sort.
    pose proof (items_unique_subseteq ids) as Hsub. rewrite Hnil in Hsub.
    destruct (items (unique ids)) as [|v ?]; [done|].
    exfalso. apply (elem_of_nil v), Hsub. left.
Qed.

Lemma main_stops_witness :
  main (Present no_rows) 3 = Ok (Stopped "No batches available.").
Proof.
  apply (main_stops (Present no_rows) 3). right. split; [reflexivity|].
  do 2 eexists. split_and!; reflexivity.
Defined.

Lemma value_same_le v w : value_same v w = true → value_le w v.
Proof.
  destruct v as [[|x]|x|x|[|x]], w as [[|y]|y|y|[|y]]; simpl; try done.
  - intros H%Qeq_bool_eq. rewrite H. apply Qle_refl.
  - intros ->%Z.eqb_eq. lia.
  - intros ->%String.eqb_eq. reflexivity.
  - intros ->%Z.eqb_eq. lia.
Qed.

(** X11: before the operator picks anything, the page is that of the
    smallest batch identifier of the table. *)
Theorem first_page_shows_smallest_batch (src : source) (p : page) :
  main src 0 = Ok (Rendered p) →
  ∃ df ids,
    load_data src = Ok (Some df) ∧ df !! "batch_id" = Some ids
    ∧ batch_card p ∈ items ids
    ∧ ∀ v, v ∈ items ids → value_le (batch_card p) v.
Proof.
  intros (df & ids & s & Hdf & Hids & Hsel & _)%main_inv.
  exists df, ids. split_and!; [done|done|..].
  { apply items_unique_subseteq. rewrite <-items_sort.
    by eapply selectbox_elem_of. }
  pose proof (Sorted_items_sort (unique ids)) as Hsorted.
  apply (Sorted_StronglySorted _) in Hsorted.
  unfold selectbox in Hsel.
  destruct (items (sort (unique ids))) as [|first rest] eqn:Hlisted; [done|].
  injection Hsel as Hsel. simpl in Hsel. rewrite <-Hsel.
  apply StronglySorted_inv in Hsorted as [_ Hrest].
  intros v (w & Hw & Hsame)%items_unique_covers.
  apply value_same_le in Hsame.
  rewrite <-items_sort, Hlisted in Hw.
  apply elem_of_cons in Hw as [<-|Hw]; [done|].
  rewrite Forall_forall in Hrest. etrans; [by apply Hrest|done].
Qed.

Lemma first_page_shows_smallest_batch_witness :
  ∃ p, main (Present readings) 0 = Ok (Rendered p) ∧
  ∃ df ids,
    load_data (Present readings) = Ok (Some df) ∧ df !! "batch_id" = Some ids
    ∧ batch_card p ∈ items ids
    ∧ ∀ v, v ∈ items ids → value_le (batch_card p) v.
Proof.
  eexists. split; [vm_compute; reflexivity|].
  apply (first_page_shows_smallest_batch (Present readings)). reflexivity.
Defined.

(** ** More on the statistics *)

(** X15: the median lies between the minimum and the maximum, and the
    minimum is not above the maximum. *)
Theorem median_between_min_and_max (xs : list float) (lo m hi : Q) :
  minimum xs = Fin lo → median xs = Fin m → maximum xs = Fin hi →
  (lo <= m)%Q ∧ (m <= hi)%Q ∧ (lo <= hi)%Q.
Proof.
  unfold minimum, maximum. destruct (dropna xs) as [|v vs] eqn:Hvs; [done|].
  intros [= <-] Hm [= <-].
  destruct (median_is_median xs v vs Hvs) as (m' & Hm' & sorted & Hperm & _ & Hmid).
  assert (m' = m) as -> by congruence.
  destruct (Qminimum_spec v vs) as [_ Hmin].
  destruct (Qmaximum_spec v vs) as [_ Hmax].
  rewrite Forall_forall in Hmin, Hmax.
  assert (∀ i w, sorted !! i = Some w →
                 (Qminimum v vs <= w)%Q ∧ (w <= Qmaximum v vs)%Q) as Hin.
  { intros i w Hw%list_elem_of_lookup_2. rewrite Hperm in Hw. auto. }
  assert ((Qminimum v vs <= m)%Q ∧ (m <= Qmaximum v vs)%Q) as [??].
  { cbv zeta in Hmid. destruct (Nat.odd _).
    - by eapply Hin.
    - destruct Hmid as (a & b & [??]%Hin & [??]%Hin & ->).
      split; apply Qle_shift_div_l || apply Qle_shift_div_r; try done; lra. }
  split_and!; [done|done|by etrans].
Qed.

Lemma median_between_min_and_max_witness :
  (1 <= 5 # 2)%Q ∧ (5 # 2 <= 4)%Q ∧ (1 <= 4)%Q.
Proof.
  apply (median_between_min_and_max [Fin 4; NaN; Fin 1; Fin 3; Fin 2]);
    reflexivity.
Defined.

(** ** A batch of one reading *)

Lemma length_dropna xs : (length (dropna xs) ≤ length xs)%nat.
Proof.
  induction xs as [|[|v] xs IH]; [done|..];
    change (dropna (?x :: xs)) with (match x with
                                      | Fin q => q :: dropna xs
                                      | NaN => dropna xs
                                      end); simpl; lia.
Qed.

Lemma time_of_single ts lo :
  (length ts ≤ 1)%nat → time_min ts = Ns lo → time_max ts = Ns lo.
Proof.
  destruct ts as [|[|n] [|? ?]]; simpl; try done; try lia.
Qed.

(** X17: a batch that has a single reading lasts "0.00 mins", its time
    range runs from a clock time to the same clock time, and each statistics
    card shows one text for mean, median, max and min and "nan" for the
    standard deviation. *)
Theorem single_reading_batch (raw : DataFrame) (ids : column) (choice : nat)
    (p : page) :
  raw !! "batch_id" = Some ids →
  main (Present raw) choice = Ok (Rendered p) →
  batch_size ids (batch_card p) = 1%nat →
  duration_card p = "0.00 mins"
  ∧ (∃ clock, time_range_card p = clock +:+ " - " +:+ clock)
  ∧ Forall (λ card,
              Std_Dev card.2 = "nan"
              ∧ Mean card.2 = Median card.2 ∧ Median card.2 = Max card.2
              ∧ Max card.2 = Min card.2)
      (stat_cards p).
Proof.
  intros Hids (df & ids' & s & Hdf & Hids' & _ & Hs & _ & -> & -> & _ & Hcards)%main_inv
    Hone.
  apply load_data_inv in Hdf as (c & c' & Hc & Hconv & ->).
  rewrite lookup_insert_ne, Hids in Hids' by done. injection Hids' as <-.
  destruct (summarize_texts _ _ _ Hs) as (_ & from & to & Hfrom & Hto & ->).
  pose proof Hs
    as (tsb & lo & hi & Htsb & Hlo & Hhi & Hstart & Hend & _ & _ & ->)%summarize_span.
  apply summarize_inv in Hs as (_ & _ & Hbd & _).
  apply filter_batch_inv in Hbd as (ids' & Hids' & Hbd).
  rewrite lookup_insert_ne, Hids in Hids' by done. injection Hids' as <-.
  assert (hi = lo) as ->.
  { assert (time_max tsb = Ns lo) as Hhi'; [|congruence].
    apply time_of_single; [|done].
    rewrite Hbd, lookup_boolean_index, lookup_insert_eq in Htsb.
    destruct c' as [| | |ts]; try done. injection Htsb as <-.
    rewrite <-Hone. apply (length_keep_le (λ cell, value_eqb cell (batch_card p))). }
  rewrite Hstart in Hfrom. rewrite Hend in Hto.
  split_and!.
  - by rewrite Z.sub_diag.
  - exists from. congruence.
  - eapply Forall2_Forall_r; [apply Hcards|]. apply Forall_forall.
    intros [variable title] _ card
      (series & xs & Hseries & Hxs & ->)%stat_card_inv.
    rewrite Hbd, lookup_boolean_index in Hseries.
    destruct (_ !! variable) as [col|]; [|done]. injection Hseries as <-.
    apply to_numeric_select in Hxs as (xs0 & _ & ->).
    assert (length (dropna (keep (eq_mask ids (batch_card p)) xs0)) ≤ 1)%nat
      as Hlen.
    { etrans; [apply length_dropna|]. rewrite <-Hone.
      apply (length_keep_le (λ cell, value_eqb cell (batch_card p))). }
    cbn [snd Mean Median Max Min Std_Dev]. unfold std.
    destruct (dropna _) as [|v [|? ?]] eqn:Hvs; [| |simpl in Hlen; lia].
    + destruct (stats_of_none _ Hvs) as (-> & -> & -> & -> & ->). done.
    + destruct (stats_of_one _ v Hvs) as (-> & -> & -> & -> & ->). done.
Qed.

Lemma single_reading_batch_witness :
  ∃ p, main (Present lone_reading) 0 = Ok (Rendered p) ∧
  duration_card p = "0.00 mins"
  ∧ (∃ clock, time_range_card p = clock +:+ " - " +:+ clock)
  ∧ Forall (λ card,
              Std_Dev card.2 = "nan"
              ∧ Mean card.2 = Median card.2 ∧ Median card.2 = Max card.2
              ∧ Max card.2 = Min card.2)
      (stat_cards p).
Proof.
  eexists. split; [vm_compute; reflexivity|].
  apply (single_reading_batch lone_reading (Int64 [7; 8; 8]) 0%nat);
    reflexivity.
Defined.
